(** * Supervisory control of the water-treatment PLC (backend.py)

    A shallow embedding of class [PLCWebController] and of [run_scenario]
    from [live_smiulation/backend.py].

    Modelling conventions.
    - The pymodbus client is an external collaborator: it is an abstract
      type with the three calls the controller makes on it (class
      [ModbusClient]).  A call answers with a response object, with a
      response whose [isError()] holds, or by raising.
    - Protocol I/O and [time.sleep] are effects.  They are threaded through
      a state monad whose state carries the controller object, the list of
      effects performed so far (the [wire]) in chronological order, and a
      logical clock.
    - Durations are in milliseconds ([0.1] s is [100], [0.05] s is [50],
      [0.5] s is [500]); a sleep cannot be negative.
    - Register values, addresses and counts are integers ([Z]); names,
      parameters, directions and scenarios are strings.
    - A parameter with a default value is an [option]: [None] is the call
      that leaves the argument out.
    - Console output ([print]) is not modelled. *)

From stdpp Require Import gmap strings list fin_maps.

Open Scope string_scope.
Open Scope Z_scope.
Open Scope list_scope.

(** ** The protocol client *)

Inductive Response (A : Type) : Type :=
| Reply (a : A)     (* a response object whose [isError()] is false *)
| ErrorReply        (* a response object whose [isError()] is true *)
| Raised.           (* the call raised an exception *)

Arguments Reply {A} a.
Arguments ErrorReply {A}.
Arguments Raised {A}.

Definition is_reply {A} (r : Response A) : bool :=
  match r with Reply _ => true | _ => false end.

(** [client.write_coil(address, value)], [client.read_coils(address, count)]
    and [client.read_holding_registers(address, count)]. *)
Class ModbusClient (C : Type) : Type := {
  client_write_coil : Z -> bool -> C -> Response unit * C;
  client_read_coils : Z -> Z -> C -> Response (list bool) * C;
  client_read_holding_registers : Z -> Z -> C -> Response (list Z) * C
}.

(** What reaches the outside world. *)
Inductive Event : Type :=
| WriteCoil (address : Z) (value : bool)
| ReadCoils (address count : Z)
| ReadHoldingRegisters (address count : Z)
| Sleep (ms : N).

Global Instance Event_eq_dec : EqDecision Event.
Proof. solve_decision. Defined.

Definition is_set_write (e : Event) : bool :=
  match e with WriteCoil _ true => true | _ => false end.

(** Number of writes of [True] among the events: one per pulse that reached
    the client. *)
Definition set_attempts (evs : list Event) : nat :=
  length (List.filter is_set_write evs).

(** ** The point tables of [__init__]

    [coil_map] and [register_map] are assigned once in [__init__] and never
    again; they are constants here.  The items are kept in the order of the
    dict literal, which is the order [.items()] iterates in. *)

Definition coil_items : list (string * Z) :=
  [ ("pump", 0); ("filter", 1); ("uv_reactor", 2); ("start_button", 3);
    ("emergency_button", 4); ("low_level_sensor", 5); ("green_light", 6);
    ("orange_light", 7); ("red_light", 8); ("fault_light", 9);
    ("pt_alert", 10); ("ft_alert", 11); ("turbidity_alert", 12);
    ("pt_inc_sim", 16); ("pt_dec_sim", 17); ("ft_inc_sim", 18);
    ("ft_dec_sim", 19); ("turb_inc_sim", 20); ("turb_dec_sim", 21);
    ("level_inc_sim", 22); ("level_dec_sim", 23) ].

Definition register_items : list (string * Z) :=
  [ ("pressure_value", 0); ("flow_value", 1); ("turbidity_value", 2);
    ("water_level", 3) ].

Definition coil_map : gmap string Z := list_to_map coil_items.
Definition register_map : gmap string Z := list_to_map register_items.

(** [self.thresholds]: a dict with exactly these five keys. *)
Record Thresholds : Type := {
  pt_low : Z;
  pt_high : Z;
  ft_low : Z;
  turb_high : Z;
  level_low : Z
}.

Definition init_thresholds : Thresholds :=
  {| pt_low := 20; pt_high := 80; ft_low := 10; turb_high := 15;
     level_low := 20 |}.

(** The dict built by [get_system_data]. *)
Record SystemData : Type := {
  timestamp : N;
  sd_connected : bool;
  coils : gmap string bool;
  registers : gmap string Z;
  alerts : list string;
  system_fault : bool
}.

(** [param_map] of [adjust_parameter]: parameter to (increment coil,
    decrement coil). *)
Definition param_map : gmap string (string * string) :=
  list_to_map
    [ ("pressure", ("pt_inc_sim", "pt_dec_sim"));
      ("flow", ("ft_inc_sim", "ft_dec_sim"));
      ("turbidity", ("turb_inc_sim", "turb_dec_sim"));
      ("level", ("level_inc_sim", "level_dec_sim")) ].

(** The body of the loops of [read_coils] and [read_registers]:
    [if address < len(values): out[name] = values[address]].
    Every address of the tables is non-negative, so the index is in range
    whenever the guard holds. *)
Definition project_step {A} (values : list A) (out : gmap string A)
  (item : string * Z) : gmap string A :=
  if bool_decide (item.2 < Z.of_nat (length values))
  then match values !! Z.to_nat item.2 with
       | Some v => <[item.1 := v]> out
       | None => out
       end
  else out.

(** [for name, address in items: ...], starting from the empty dict. *)
Definition project {A} (items : list (string * Z)) (values : list A)
  : gmap string A :=
  foldl (project_step values) ∅ items.

(** [alerts = []] followed by the four conditional appends of
    [get_system_data]; [registers.get(key, default)] is [default] on a
    missing key. *)
Definition evaluate_alerts (th : Thresholds) (regs : gmap string Z)
  : list string :=
  let alerts : list string := [] in
  let alerts :=
    if bool_decide (default 50 (regs !! "pressure_value") < pt_low th)
       || bool_decide (default 50 (regs !! "pressure_value") > pt_high th)
    then alerts ++ ["Pressure Alert"] else alerts in
  let alerts :=
    if bool_decide (default 25 (regs !! "flow_value") < ft_low th)
    then alerts ++ ["Flow Alert"] else alerts in
  let alerts :=
    if bool_decide (default 5 (regs !! "turbidity_value") > turb_high th)
    then alerts ++ ["Turbidity Alert"] else alerts in
  let alerts :=
    if bool_decide (default 75 (regs !! "water_level") < level_low th)
    then alerts ++ ["Low Level Alert"] else alerts in
  alerts.

Section Controller.

Context {C : Type} `{ModbusClient C}.

(** The attributes of a [PLCWebController] that change after [__init__],
    and its thresholds. *)
Record PLCWebController : Type := {
  host : string;
  port : Z;
  client : C;
  connected : bool;
  monitoring : bool;
  last_data : option SystemData;   (* [None] is the initial [{}] *)
  thresholds : Thresholds
}.

Definition PLCWebController_init (h : string) (p : Z) (c : C)
  : PLCWebController :=
  {| host := h; port := p; client := c; connected := false;
     monitoring := false; last_data := None;
     thresholds := init_thresholds |}.

Definition set_client (c : C) (s : PLCWebController) : PLCWebController :=
  {| host := host s; port := port s; client := c;
     connected := connected s; monitoring := monitoring s;
     last_data := last_data s; thresholds := thresholds s |}.

Definition set_last_data (d : SystemData) (s : PLCWebController)
  : PLCWebController :=
  {| host := host s; port := port s; client := client s;
     connected := connected s; monitoring := monitoring s;
     last_data := Some d; thresholds := thresholds s |}.

(** The state the methods run in. *)
Record World : Type := {
  self : PLCWebController;
  wire : list Event;
  clock : N
}.

Definition M (A : Type) : Type := World -> A * World.

Definition ret {A} (a : A) : M A := fun w => (a, w).

Definition bind {A B} (m : M A) (k : A -> M B) : M B :=
  fun w => let (a, w') := m w in k a w'.

Notation "x <- m ;; k" := (bind m (fun x => k))
  (at level 100, m at next level, right associativity).
Notation "m ;;; k" := (bind m (fun _ => k))
  (at level 100, right associativity).

(** One exchange on [self.client]: the request goes on the wire and the
    client object moves to its next state. *)
Definition exchange {A} (e : Event) (call : C -> Response A * C)
  : M (Response A) :=
  fun w =>
    let (r, c') := call (client (self w)) in
    (r, {| self := set_client c' (self w);
           wire := wire w ++ [e];
           clock := clock w |}).

(** [time.sleep] *)
Definition sleep (ms : N) : M unit :=
  fun w => (tt, {| self := self w;
                   wire := wire w ++ [Sleep ms];
                   clock := (clock w + ms)%N |}).

Definition get_connected : M bool := fun w => (connected (self w), w).

(** [for _ in range(n): body] *)
Fixpoint for_range (n : nat) (body : M unit) : M unit :=
  match n with
  | O => ret tt
  | S n' => body ;;; for_range n' body
  end.

(** *** Methods *)

Definition write_coil (name : string) (value : bool) : M bool :=
  c <- get_connected ;;
  if negb c then ret false
  else match coil_map !! name with
       | None => ret false
       | Some address =>
           result <- exchange (WriteCoil address value)
                              (client_write_coil address value) ;;
           match result with
           | Reply _ => ret true
           | ErrorReply => ret false
           | Raised => ret false
           end
       end.

Definition read_coils (count : option Z) : M (gmap string bool) :=
  let count := default 24 count in   (* [count=24] *)
  c <- get_connected ;;
  if negb c then ret ∅
  else
    result <- exchange (ReadCoils 0 count) (client_read_coils 0 count) ;;
    match result with
    | Reply bits => ret (project coil_items bits)
    | ErrorReply => ret ∅
    | Raised => ret ∅
    end.

Definition read_registers : M (gmap string Z) :=
  c <- get_connected ;;
  if negb c then ret ∅
  else
    result <- exchange (ReadHoldingRegisters 0 4)
                       (client_read_holding_registers 0 4) ;;
    match result with
    | Reply regs => ret (project register_items regs)
    | ErrorReply => ret ∅
    | Raised => ret ∅
    end.

Definition pulse_coil (name : string) (duration : option N) : M bool :=
  let duration := default 100%N duration in   (* [duration=0.1] *)
  ok <- write_coil name true ;;
  if ok then
    sleep duration ;;;
    _ <- write_coil name false ;;
    ret true
  else ret false.

Definition adjust_parameter (param direction : string) (steps : option Z)
  : M bool :=
  let steps := default 1 steps in   (* [steps=1] *)
  match param_map !! param with
  | None => ret false
  | Some (inc_coil, dec_coil) =>
      let coil := if String.eqb direction "up" then inc_coil
                  else dec_coil in
      for_range (Z.to_nat steps)
                (_ <- pulse_coil coil (Some 100%N) ;; sleep 100) ;;;
      ret true
  end.

Definition get_system_data : M SystemData :=
  coils <- read_coils None ;;
  registers <- read_registers ;;
  fun w =>
    let alerts := evaluate_alerts (thresholds (self w)) registers in
    let data :=
      {| timestamp := clock w;
         sd_connected := connected (self w);
         coils := coils;
         registers := registers;
         alerts := alerts;
         system_fault := bool_decide (0 < length alerts)%nat |} in
    (data, {| self := set_last_data data (self w);
              wire := wire w;
              clock := clock w |}).

(** *** Module level: the global [plc_controller] and [run_scenario] *)

Record Process : Type := {
  plc_controller : option PLCWebController;   (* [None] is Python's [None] *)
  p_wire : list Event;
  p_clock : N
}.

(** The body of the [try] block of [run_scenario].  No call in it can
    raise: [write_coil] catches every exception of the client, so the
    [except] branch is never taken. *)
Definition run_scenario_try (scenario : string) : M bool :=
  if String.eqb scenario "normal_startup" then
    _ <- write_coil "emergency_button" false ;;
    sleep 500 ;;;
    _ <- pulse_coil "start_button" None ;;
    ret true
  else if String.eqb scenario "low_pressure" then
    for_range 8 (_ <- pulse_coil "pt_dec_sim" (Some 100%N) ;; sleep 100) ;;;
    ret true
  else if String.eqb scenario "high_turbidity" then
    for_range 8 (_ <- pulse_coil "turb_inc_sim" (Some 100%N) ;; sleep 100) ;;;
    ret true
  else if String.eqb scenario "multiple_faults" then
    for_range 8 (_ <- pulse_coil "pt_dec_sim" (Some 100%N) ;; sleep 50) ;;;
    for_range 6 (_ <- pulse_coil "ft_dec_sim" (Some 100%N) ;; sleep 50) ;;;
    for_range 10 (_ <- pulse_coil "turb_inc_sim" (Some 100%N) ;; sleep 50) ;;;
    ret true
  else ret false.

Definition run_scenario (scenario : string) (p : Process) : bool * Process :=
  match plc_controller p with
  | None => (false, p)
  | Some ctl =>
      let (r, w) := run_scenario_try scenario
                      {| self := ctl; wire := p_wire p;
                         clock := p_clock p |} in
      (r, {| plc_controller := Some (self w); p_wire := wire w;
             p_clock := clock w |})
  end.

End Controller.

Arguments PLCWebController C : clear implicits.
Arguments World C : clear implicits.
Arguments Process C : clear implicits.

(** ** A simulated PLC

    A concrete client used to run the controller: it holds the coil and
    register banks of the PLC and a script that says, exchange by exchange,
    whether the exchange is answered, answered with an error response, or
    raises.  An exhausted script answers every exchange. *)

Inductive Outcome : Type := Answer | Refuse | Crash.

Record SimPLC : Type := {
  sim_coils : list bool;
  sim_registers : list Z;
  sim_script : list Outcome
}.

Definition sim_next (s : SimPLC) : Outcome * SimPLC :=
  match sim_script s with
  | [] => (Answer, s)
  | o :: rest =>
      (o, {| sim_coils := sim_coils s; sim_registers := sim_registers s;
             sim_script := rest |})
  end.

Definition sim_slice {A} (address count : Z) (l : list A) : list A :=
  take (Z.to_nat count) (drop (Z.to_nat address) l).

Definition sim_answer {A} (o : Outcome) (a : A) : Response A :=
  match o with
  | Answer => Reply a
  | Refuse => ErrorReply
  | Crash => Raised
  end.

Global Instance SimPLC_client : ModbusClient SimPLC := {|
  client_write_coil address value s :=
    let (o, s') := sim_next s in
    match o with
    | Answer =>
        (Reply tt,
         {| sim_coils := <[Z.to_nat address := value]> (sim_coils s');
            sim_registers := sim_registers s';
            sim_script := sim_script s' |})
    | _ => (sim_answer o tt, s')
    end;
  client_read_coils address count s :=
    let (o, s') := sim_next s in
    (sim_answer o (sim_slice address count (sim_coils s')), s');
  client_read_holding_registers address count s :=
    let (o, s') := sim_next s in
    (sim_answer o (sim_slice address count (sim_registers s')), s')
|}.

(** A PLC with 24 cleared coils and the given registers. *)
Definition sim_plc (regs : list Z) (script : list Outcome) : SimPLC :=
  {| sim_coils := replicate 24 false; sim_registers := regs;
     sim_script := script |}.

Definition sim_controller (conn : bool) (regs : list Z)
  (script : list Outcome) : PLCWebController SimPLC :=
  {| host := "localhost"; port := 502; client := sim_plc regs script;
     connected := conn; monitoring := false; last_data := None;
     thresholds := init_thresholds |}.

Definition sim_world (conn : bool) (regs : list Z) (script : list Outcome)
  : World SimPLC :=
  {| self := sim_controller conn regs script; wire := []; clock := 0%N |}.

Definition sim_process (conn : bool) (regs : list Z) (script : list Outcome)
  : Process SimPLC :=
  {| plc_controller := Some (sim_controller conn regs script);
     p_wire := []; p_clock := 0%N |}.

(** ** Vocabulary of the statements *)

(** What one call of [pulse_coil] puts on the wire: nothing (the write was
    rejected before any I/O), the set write alone (it failed), or the set
    write, the dwell and the clear write. *)
Inductive PulseOutcome : Type := NotSent | SetFailed | Pulsed.

Global Instance PulseOutcome_eq_dec : EqDecision PulseOutcome.
Proof. solve_decision. Defined.

Definition pulse_events (a : Z) (d : N) (o : PulseOutcome) : list Event :=
  match o with
  | NotSent => []
  | SetFailed => [WriteCoil a true]
  | Pulsed => [WriteCoil a true; Sleep d; WriteCoil a false]
  end.

(** A sequence of pulses of the coil at address [a], with dwell [d], each
    followed by a pause of [gap]. *)
Fixpoint pulse_train (a : Z) (d gap : N) (os : list PulseOutcome)
  : list Event :=
  match os with
  | [] => []
  | o :: os' => pulse_events a d o ++ Sleep gap :: pulse_train a d gap os'
  end.

Definition scenario_names : list string :=
  ["normal_startup"; "low_pressure"; "high_turbidity"; "multiple_faults"].

(** Number of [pulse_coil] calls a scenario makes. *)
Definition scenario_pulses (scenario : string) : nat :=
  if String.eqb scenario "normal_startup" then 1
  else if String.eqb scenario "low_pressure" then 8
  else if String.eqb scenario "high_turbidity" then 8
  else if String.eqb scenario "multiple_faults" then 24
  else 0.

Definition parameter_names : list string :=
  ["pressure"; "flow"; "turbidity"; "level"].

Definition alert_order : list string :=
  ["Pressure Alert"; "Flow Alert"; "Turbidity Alert"; "Low Level Alert"].

(** [w'] is [w] after the events [evs]: the wire grew by [evs] and of the
    controller's attributes only the client object may differ. *)
Definition steps_to {C} (w : World C) (evs : list Event) (w' : World C)
  : Prop :=
  self w' = set_client (client (self w')) (self w) /\
  wire w' = wire w ++ evs.

(** From [w] to [w'] the controller only talked to its client, and if it
    was connected it attempted exactly [n] set writes. *)
Definition attempts {C} (w : World C) (n : nat) (w' : World C) : Prop :=
  exists evs, steps_to w evs w' /\
              (connected (self w) = true -> set_attempts evs = n).

(** A set of client states in which every write is answered. *)
Definition accepts_writes {C} `{ModbusClient C} (P : C -> Prop) : Prop :=
  forall a v c, P c ->
    is_reply (client_write_coil a v c).1 = true /\
    P (client_write_coil a v c).2.

(** ** Connecting, monitoring and the web layer

    The rest of [backend.py]: [connect], [disconnect], the monitoring flag
    and loop of the controller, and the Flask routes and Socket.IO handlers
    that call the controller.

    - Of the client, [connect] and [disconnect] use the constructor,
      [connect()] and [close()] (class [ModbusSession]).  These are not
      protocol exchanges and leave no event on the wire; they move the
      client object to its next state.
    - [socketio.emit] is the broadcast to the web clients (class
      [SocketIO]); it may raise.
    - A request body is a JSON object whose fields have their intended
      types.  A field read with a default ([host], [port], [steps]) is
      [None] when its key is absent; any other field is [None] when it is
      absent or [null].
    - Threads are outside the model: [start_monitoring] and
      [stop_monitoring] are the updates of the [monitoring] flag, and
      [_monitor_loop] is the loop as its own thread runs it, cycle by
      cycle, with a bound on the number of cycles. *)

Class ModbusSession (C : Type) : Type := {
  client_new : string -> Z -> C;            (* [ModbusTcpClient(host, port=port)] *)
  client_connect : C -> option bool * C;    (* [client.connect()]; [None]: raised *)
  client_close : C -> C                     (* [client.close()] *)
}.

Class SocketIO (S : Type) : Type := {
  (* [socketio.emit(event, data)]; [false]: raised *)
  socketio_emit : string -> SystemData -> S -> bool * S
}.

(** Python's [value == 'literal'] on a JSON field. *)
Definition py_eq (value : option string) (literal : string) : bool :=
  match value with
  | Some s => String.eqb s literal
  | None => false
  end.

(** The body of [request.get_json()] for [/api/connect]. *)
Record ConnectData : Type := {
  cd_host : option string;
  cd_port : option Z
}.

(** The body of [request.get_json()] for [/api/control]. *)
Record ControlData : Type := {
  action : option string;
  parameter : option string;
  direction : option string;
  steps : option Z;
  scenario : option string
}.

(** The [data] of a [plc_command] message. *)
Record CommandData : Type := {
  command : option string;
  cmd_parameter : option string;
  cmd_direction : option string
}.

(** [jsonify({'success': ..., 'message': ...})] with its status code. *)
Record JsonReply : Type := {
  status : Z;
  success : bool;
  message : option string
}.

(** What [/api/system_data] answers. *)
Inductive SystemDataReply : Type :=
| SnapshotReply (d : SystemData)                    (* status 200 *)
| SnapshotError (status : Z) (error : string).

(** What a handler [emit]s to the web client it serves. *)
Inductive ClientMessage : Type :=
| PlcData (d : SystemData)                              (* ['plc_data'] *)
| ErrorMessage (message : string)                       (* ['error'] *)
| CommandResult (success : bool) (error : option string). (* ['command_result'] *)

Definition not_connected_reply : JsonReply :=
  {| status := 400; success := false; message := Some "PLC not connected" |}.

(** How [_monitor_loop] stands after the cycles it was given. *)
Inductive LoopState : Type := Exited | Running.

Section Server.

Context {C : Type} `{ModbusClient C} `{ModbusSession C}.
Context {S : Type} `{SocketIO S}.

(** [PYMODBUS_VERSION]: 3 or 2, fixed by the import at the top of the
    module. *)
Variable PYMODBUS_VERSION : Z.

Notation "x <- m ;; k" := (bind m (fun x => k))
  (at level 100, m at next level, right associativity).

Definition set_connected (b : bool) (s : PLCWebController C)
  : PLCWebController C :=
  {| host := host s; port := port s; client := client s;
     connected := b; monitoring := monitoring s;
     last_data := last_data s; thresholds := thresholds s |}.

Definition set_monitoring (b : bool) (s : PLCWebController C)
  : PLCWebController C :=
  {| host := host s; port := port s; client := client s;
     connected := connected s; monitoring := b;
     last_data := last_data s; thresholds := thresholds s |}.

(** An assignment to attributes of [self]. *)
Definition update_self (f : PLCWebController C -> PLCWebController C)
  : M unit :=
  fun w => (tt, {| self := f (self w); wire := wire w; clock := clock w |}).

(** *** [connect], [disconnect] and the monitoring flag *)

Definition connect : M bool :=
  fun w =>
    (* the value assigned to [self.connected]; [None]: [client.connect()]
       raised and the outer [except] returns [False] *)
    let assigned : option bool * World C :=
      if bool_decide (PYMODBUS_VERSION >= 3) then (Some true, w)
      else
        let (r, c') := client_connect (client (self w)) in
        (r, (update_self (set_client c') w).2) in
    match assigned with
    | (None, w1) => (false, w1)
    | (Some b, w1) =>
        let w2 := (update_self (set_connected b) w1).2 in
        if b then
          (result <- exchange (ReadCoils 0 1) (client_read_coils 0 1) ;;
           match result with
           | Reply _ => ret true
           | ErrorReply => ret true   (* "Still allow connection for demo" *)
           | Raised => ret true
           end) w2
        else (false, w2)
    end.

Definition start_monitoring : M unit :=
  fun w =>
    if monitoring (self w) then (tt, w)
    else update_self (set_monitoring true) w.

Definition stop_monitoring : M unit :=
  fun w =>
    if monitoring (self w) then update_self (set_monitoring false) w
    else (tt, w).

(** [hasattr(self.client, 'close')] holds of the pymodbus client. *)
Definition disconnect : M unit :=
  fun w =>
    if connected (self w) then
      (_ <- stop_monitoring ;;
       _ <- (if bool_decide (PYMODBUS_VERSION < 3)
             then fun w' =>
                    update_self (set_client (client_close (client (self w'))))
                                w'
             else ret tt) ;;
       update_self (set_connected false)) w
    else (tt, w).

(** *** [_monitor_loop] *)

(** The monitoring thread's view: the controller, the broadcast channel and
    what was handed to [socketio.emit] so far. *)
Record Monitor : Type := {
  m_world : World C;
  m_sink : S;
  m_published : list (string * SystemData)
}.

(** One pass through the body of the [while]. *)
Definition monitor_cycle (m : Monitor) : Monitor :=
  let (data, w1) := get_system_data (m_world m) in
  let (ok, s1) := socketio_emit "plc_data" data (m_sink m) in
  let published := m_published m ++ [("plc_data", data)] in
  if ok then
    {| m_world := (sleep 1000 w1).2; m_sink := s1;
       m_published := published |}
  else   (* [except]: the cycle is abandoned and the loop backs off *)
    {| m_world := (sleep 2000 w1).2; m_sink := s1;
       m_published := published |}.

(** [while self.monitoring and self.connected: ...], for at most [cycles]
    cycles. *)
Fixpoint _monitor_loop (cycles : nat) (m : Monitor) : LoopState * Monitor :=
  if monitoring (self (m_world m)) && connected (self (m_world m)) then
    match cycles with
    | O => (Running, m)
    | Datatypes.S cycles' => _monitor_loop cycles' (monitor_cycle m)
    end
  else (Exited, m).

(** *** Flask routes and Socket.IO handlers *)

Definition world_of (ctl : PLCWebController C) (p : Process C) : World C :=
  {| self := ctl; wire := p_wire p; clock := p_clock p |}.

Definition process_of (w : World C) : Process C :=
  {| plc_controller := Some (self w); p_wire := wire w;
     p_clock := clock w |}.

(** A method call [plc_controller.m(...)]. *)
Definition on_controller {A} (ctl : PLCWebController C) (m : M A)
  (p : Process C) : A * Process C :=
  let (a, w) := m (world_of ctl p) in (a, process_of w).

Definition json_success (ok : bool) : JsonReply :=
  {| status := 200; success := ok; message := None |}.

Definition connect_plc (data : ConnectData) (p : Process C)
  : JsonReply * Process C :=
  let h := default "localhost" (cd_host data) in
  let pt := default 502 (cd_port data) in
  (* [if plc_controller: plc_controller.disconnect()] *)
  let p0 :=
    match plc_controller p with
    | Some old => (on_controller old disconnect p).2
    | None => p
    end in
  let ctl := PLCWebController_init h pt (client_new h pt) in
  let (ok, w1) := connect (world_of ctl p0) in
  if ok then
    let (_, w2) := start_monitoring w1 in
    ({| status := 200; success := true;
        message := Some "Connected to PLC" |}, process_of w2)
  else
    ({| status := 200; success := false;
        message := Some "Failed to connect to PLC" |}, process_of w1).

Definition disconnect_plc (p : Process C) : JsonReply * Process C :=
  ({| status := 200; success := true;
      message := Some "Disconnected from PLC" |},
   match plc_controller p with
   | Some ctl =>
       let w := (disconnect (world_of ctl p)).2 in
       {| plc_controller := None; p_wire := wire w; p_clock := clock w |}
   | None => p
   end).

(** The route [/api/system_data] (the module-level [get_system_data]). *)
Definition get_system_data_route (p : Process C)
  : SystemDataReply * Process C :=
  match plc_controller p with
  | Some ctl =>
      if connected ctl then
        let (d, p') := on_controller ctl get_system_data p in
        (SnapshotReply d, p')
      else (SnapshotError 400 "PLC not connected", p)
  | None => (SnapshotError 400 "PLC not connected", p)
  end.

(** [adjust_parameter] only compares its direction with ['up']; a missing
    direction is unequal to it, as the empty string is. *)
Definition direction_arg (d : option string) : string := default "" d.

(** [plc_controller.adjust_parameter(param, direction, steps)] with the
    fields of a request: a missing parameter is in no [param_map], so the
    call returns [False] at its first test. *)
Definition adjust_request (param d : option string) (n : option Z)
  : M bool :=
  match param with
  | Some name => adjust_parameter name (direction_arg d) n
  | None => ret false
  end.

(** The route [/api/control].  No call in its [try] block can raise on a
    well-typed request, so the [except] branch is never taken. *)
Definition control_system (data : ControlData) (p : Process C)
  : JsonReply * Process C :=
  match plc_controller p with
  | None => (not_connected_reply, p)
  | Some ctl =>
      if negb (connected ctl) then (not_connected_reply, p)
      else
        let reply (r : bool * Process C) := (json_success r.1, r.2) in
        let act := action data in
        if py_eq act "start" then
          reply (on_controller ctl (pulse_coil "start_button" None) p)
        else if py_eq act "emergency_stop" then
          reply (on_controller ctl (write_coil "emergency_button" true) p)
        else if py_eq act "reset" then
          reply (on_controller ctl (write_coil "emergency_button" false) p)
        else if py_eq act "adjust_parameter" then
          (* [steps = data.get('steps', 1)] *)
          reply (on_controller ctl
                   (adjust_request (parameter data) (direction data)
                      (Some (default 1 (steps data)))) p)
        else if py_eq act "scenario" then
          reply (match scenario data with
                 | Some name => run_scenario name p
                 | None => (false, p)   (* no name equals [None] *)
                 end)
        else
          ({| status := 200; success := false;
              message := Some "Unknown action" |}, p)
  end.

(** The handler of the Socket.IO event ['connect']. *)
Definition handle_connect (p : Process C) : list ClientMessage :=
  match plc_controller p with
  | Some ctl =>
      match last_data ctl with
      | Some d => [PlcData d]
      | None => []
      end
  | None => []
  end.

(** The handler of the Socket.IO event ['plc_command']. *)
Definition handle_plc_command (data : CommandData) (p : Process C)
  : list ClientMessage * Process C :=
  match plc_controller p with
  | None => ([ErrorMessage "PLC not connected"], p)
  | Some ctl =>
      if negb (connected ctl) then ([ErrorMessage "PLC not connected"], p)
      else
        let cmd := command data in
        let p' :=
          if py_eq cmd "start_system" then
            (on_controller ctl (pulse_coil "start_button" None) p).2
          else if py_eq cmd "emergency_stop" then
            (on_controller ctl (write_coil "emergency_button" true) p).2
          else if py_eq cmd "reset_system" then
            (on_controller ctl (write_coil "emergency_button" false) p).2
          else if py_eq cmd "adjust_parameter" then
            (on_controller ctl
               (adjust_request (cmd_parameter data) (cmd_direction data)
                  None) p).2
          else p in
        ([CommandResult true None], p')
  end.

End Server.

(** *** The simulated PLC as a session, and a scripted broadcast *)

(** A new client reaches a PLC with cleared coils and mid-range readings;
    [connect()] follows the script like an exchange does. *)
Global Instance SimPLC_session : ModbusSession SimPLC := {|
  client_new _ _ := sim_plc [50; 25; 5; 75] [];
  client_connect s :=
    let (o, s') := sim_next s in
    (match o with
     | Answer => Some true
     | Refuse => Some false
     | Crash => None
     end, s');
  client_close s := s
|}.

(** A broadcast channel that raises where its script says [true]. *)
Record SimSink : Type := { sink_script : list bool }.

Global Instance SimSink_socketio : SocketIO SimSink := {|
  socketio_emit _ _ s :=
    match sink_script s with
    | [] => (true, s)
    | raises :: rest => (negb raises, {| sink_script := rest |})
    end
|}.

Definition sim_monitor (monitor conn : bool) (regs : list Z)
  (script : list Outcome) (raises : list bool) : Monitor (C := SimPLC) :=
  {| m_world :=
       {| self := set_monitoring monitor (sim_controller conn regs script);
          wire := []; clock := 0%N |};
     m_sink := {| sink_script := raises |};
     m_published := [] |}.

(** ** Vocabulary of the statements, continued *)

(** Events of actuation: writes and pauses, no read. *)
Definition is_actuation (e : Event) : bool :=
  match e with
  | WriteCoil _ _ => true
  | Sleep _ => true
  | _ => false
  end.

(** The actions [/api/control] knows and the commands [plc_command]
    knows. *)
Definition control_actions : list string :=
  ["start"; "emergency_stop"; "reset"; "adjust_parameter"; "scenario"].


(** The field is absent or is none of the [known] strings. *)
Definition unknown_in (known : list string) (value : option string) : Prop :=
  forall s, value = Some s -> s ∉ known.

Definition is_sleep (e : Event) : bool :=
  match e with
  | Sleep _ => true
  | _ => false
  end.

(** From [w] to [w'] the controller only talked to its client, and every
    event it put on the wire is of the kind [kind]. *)
Definition emits_only {C} (kind : Event -> bool) (w w' : World C) : Prop :=
  exists evs, steps_to w evs w' /\ Forall (fun e => kind e = true) evs.

(** What one cycle of the monitoring loop puts on the wire. *)
Definition cycle_events (pause : N) : list Event :=
  [ReadCoils 0 24; ReadHoldingRegisters 0 4; Sleep pause].

(** The wire of a run of cycles with the given pauses. *)
Fixpoint cycles_events (pauses : list N) : list Event :=
  match pauses with
  | [] => []
  | pause :: rest => cycle_events pause ++ cycles_events rest
  end.

Lemma coil_map_items : coil_map = list_to_map coil_items.
Proof. reflexivity. Qed.

Lemma register_map_items : register_map = list_to_map register_items.
Proof. reflexivity. Qed.

Lemma project_step_keys {A} (values : list A) items k :
  forall acc : gmap string A,
    is_Some (foldl (project_step values) acc items !! k) ->
    is_Some (acc !! k) \/ k ∈ items.*1.
Proof.
  induction items as [|[n a] items IH]; intros acc; simpl.
  - by left.
  - intros Hk. destruct (IH _ Hk) as [Hacc | Hin].
    + unfold project_step in Hacc; simpl in Hacc.
      case_bool_decide; [|by left].
      destruct (values !! Z.to_nat a); [|by left].
      destruct (decide (n = k)) as [->|Hne].
      * right. apply list_elem_of_here.
      * rewrite lookup_insert_ne in Hacc by done. by left.
    + right. by apply list_elem_of_further.
Qed.

Lemma project_keys {A} (items : list (string * Z)) (values : list A) k :
  is_Some (project items values !! k) -> k ∈ items.*1.
Proof.
  intros Hk. destruct (project_step_keys values items k ∅ Hk) as [Hacc|Hin].
  - rewrite lookup_empty in Hacc. by destruct Hacc.
  - done.
Qed.

Lemma project_dom {A} (items : list (string * Z)) (values : list A) :
  dom (project items values) ⊆ dom (list_to_map items : gmap string Z).
Proof.
  intros k Hk. apply elem_of_dom in Hk.
  rewrite dom_list_to_map_L. apply elem_of_list_to_set.
  by apply (project_keys items values).
Qed.

(** Looking a point up in a projection: with distinct names, each name
    holds the value at its address, and is absent when the values stop
    short of it. *)
Lemma project_step_lookup {A} (values : list A) items name :
  name ∉ items.*1 ->
  forall acc : gmap string A,
    foldl (project_step values) acc items !! name = acc !! name.
Proof.
  induction items as [|[n a] items IH]; intros Hname acc; [done|].
  cbn [foldl]. rewrite fmap_cons, not_elem_of_cons in Hname.
  destruct Hname as [Hne Hname]. rewrite (IH Hname).
  unfold project_step; cbn [fst snd].
  case_bool_decide; [|done].
  destruct (values !! Z.to_nat a); [|done].
  by rewrite lookup_insert_ne.
Qed.

Lemma project_step_found {A} (values : list A) items name a :
  NoDup items.*1 -> (name, a) ∈ items ->
  forall acc : gmap string A,
    foldl (project_step values) acc items !! name
    = match values !! Z.to_nat a with
      | Some v => Some v
      | None => acc !! name
      end.
Proof.
  induction items as [|[n b] items IH]; intros Hnd Hin acc.
  { by apply elem_of_nil in Hin. }
  rewrite fmap_cons in Hnd. apply NoDup_cons in Hnd as [Hfresh Hnd].
  cbn [fst snd] in *.
  apply elem_of_cons in Hin as [Heq | Hin].
  - injection Heq as -> ->. cbn [foldl].
    rewrite (project_step_lookup values items n Hfresh).
    unfold project_step; cbn [fst snd].
    case_bool_decide as Hlt.
    + destruct (values !! Z.to_nat b) as [v|] eqn:Hv; [|done].
      by rewrite lookup_insert_eq.
    + assert (Hv : values !! Z.to_nat b = None)
        by (apply lookup_ge_None; lia).
      by rewrite Hv.
  - cbn [foldl]. rewrite (IH Hnd Hin).
    destruct (values !! Z.to_nat a); [done|].
    assert (Hne : n <> name).
    { intros ->. apply Hfresh. apply list_elem_of_fmap.
      by exists (name, a). }
    unfold project_step; cbn [fst snd].
    case_bool_decide; [|done].
    destruct (values !! Z.to_nat b); [|done].
    by rewrite lookup_insert_ne.
Qed.

Lemma project_lookup {A} (items : list (string * Z)) (values : list A)
  name a :
  NoDup items.*1 -> (name, a) ∈ items ->
  project items values !! name = values !! Z.to_nat a.
Proof.
  intros Hnd Hin. unfold project.
  rewrite (project_step_found values items name a Hnd Hin).
  by destruct (values !! Z.to_nat a).
Qed.

Lemma coil_items_NoDup : NoDup coil_items.*1.
Proof. apply (bool_decide_unpack _). by vm_compute. Qed.

Lemma register_items_NoDup : NoDup register_items.*1.
Proof. apply (bool_decide_unpack _). by vm_compute. Qed.

Lemma evaluate_alerts_defaults : evaluate_alerts init_thresholds ∅ = [].
Proof. vm_compute. reflexivity. Qed.

Lemma evaluate_alerts_app (th : Thresholds) (regs : gmap string Z) :
  evaluate_alerts th regs =
    (if bool_decide (default 50 (regs !! "pressure_value") < pt_low th)
        || bool_decide (default 50 (regs !! "pressure_value") > pt_high th)
     then ["Pressure Alert"] else []) ++
    (if bool_decide (default 25 (regs !! "flow_value") < ft_low th)
     then ["Flow Alert"] else []) ++
    (if bool_decide (default 5 (regs !! "turbidity_value") > turb_high th)
     then ["Turbidity Alert"] else []) ++
    (if bool_decide (default 75 (regs !! "water_level") < level_low th)
     then ["Low Level Alert"] else []).
Proof.
  unfold evaluate_alerts.
  destruct (_ || _); destruct (bool_decide (_ < ft_low th));
    destruct (bool_decide (_ > turb_high th));
    destruct (bool_decide (_ < level_low th)); reflexivity.
Qed.

(** Which alerts a list built from four conditions holds. *)
Lemma optional_alerts_members (c1 c2 c3 c4 : bool) :
  let found := (if c1 then ["Pressure Alert"] else []) ++
               (if c2 then ["Flow Alert"] else []) ++
               (if c3 then ["Turbidity Alert"] else []) ++
               (if c4 then ["Low Level Alert"] else []) in
  sublist found alert_order /\
  bool_decide ("Pressure Alert" ∈ found) = c1 /\
  bool_decide ("Flow Alert" ∈ found) = c2 /\
  bool_decide ("Turbidity Alert" ∈ found) = c3 /\
  bool_decide ("Low Level Alert" ∈ found) = c4.
Proof.
  unfold alert_order.
  destruct c1, c2, c3, c4; cbn [app];
    (split;
      [repeat first [apply sublist_nil_l | apply sublist_skip
                    | apply sublist_cons]
      |vm_compute; done]).
Qed.

Lemma bool_decide_member (x : string) (l : list string) (c : bool) :
  bool_decide (x ∈ l) = c -> (x ∈ l <-> c = true).
Proof. intros <-. symmetry. apply bool_decide_eq_true. Qed.

(** The alert list of a register map: its order and its members. *)
Lemma evaluate_alerts_members (th : Thresholds) (regs : gmap string Z) :
  let pressure := default 50 (regs !! "pressure_value") in
  let flow := default 25 (regs !! "flow_value") in
  let turbidity := default 5 (regs !! "turbidity_value") in
  let level := default 75 (regs !! "water_level") in
  let found := evaluate_alerts th regs in
  sublist found alert_order /\
  ("Pressure Alert" ∈ found <->
     pressure < pt_low th \/ pt_high th < pressure) /\
  ("Flow Alert" ∈ found <-> flow < ft_low th) /\
  ("Turbidity Alert" ∈ found <-> turb_high th < turbidity) /\
  ("Low Level Alert" ∈ found <-> level < level_low th).
Proof.
  cbv zeta. rewrite evaluate_alerts_app.
  generalize (default 50 (regs !! "pressure_value")),
    (default 25 (regs !! "flow_value")),
    (default 5 (regs !! "turbidity_value")),
    (default 75 (regs !! "water_level")).
  intros pressure flow turbidity level.
  destruct (optional_alerts_members
              (bool_decide (pressure < pt_low th)
               || bool_decide (pressure > pt_high th))
              (bool_decide (flow < ft_low th))
              (bool_decide (turbidity > turb_high th))
              (bool_decide (level < level_low th)))
    as (Hsub & Hp & Hf & Ht & Hl).
  split; [exact Hsub|].
  apply bool_decide_member in Hp, Hf, Ht, Hl.
  split; [|split; [|split]].
  - etrans; [exact Hp|]. rewrite orb_true_iff, !bool_decide_eq_true. lia.
  - etrans; [exact Hf|]. apply bool_decide_eq_true.
  - etrans; [exact Ht|]. rewrite bool_decide_eq_true. lia.
  - etrans; [exact Hl|]. apply bool_decide_eq_true.
Qed.

Lemma param_map_coils param inc_coil dec_coil :
  param_map !! param = Some (inc_coil, dec_coil) ->
  is_Some (coil_map !! inc_coil) /\ is_Some (coil_map !! dec_coil).
Proof.
  intros Hp. apply elem_of_list_to_map_2 in Hp.
  rewrite !elem_of_cons, elem_of_nil in Hp.
  destruct Hp as [Hp|[Hp|[Hp|[Hp|[]]]]]; inversion Hp; subst;
    split; eexists; vm_compute; reflexivity.
Qed.

Lemma param_map_known param :
  param ∈ parameter_names ->
  exists inc_coil dec_coil, param_map !! param = Some (inc_coil, dec_coil).
Proof.
  unfold parameter_names. rewrite !elem_of_cons, elem_of_nil.
  intros [->|[->|[->|[->|[]]]]]; do 2 eexists; vm_compute; reflexivity.
Qed.

Lemma param_map_unknown param :
  param ∉ parameter_names -> param_map !! param = None.
Proof.
  intros Hp. apply not_elem_of_list_to_map_1. exact Hp.
Qed.

(** From here on the tables, the projection and the alert evaluation are
    used through the lemmas above or by computation. *)
Global Opaque coil_map register_map param_map project evaluate_alerts.

Section Properties.

Context {C : Type} `{ModbusClient C}.

Notation "x <- m ;; k" := (bind m (fun x => k))
  (at level 100, m at next level, right associativity).

Implicit Types w : World C.

(** ** Framing *)

Lemma set_client_id (s : PLCWebController C) : set_client (client s) s = s.
Proof. by destruct s. Qed.

Lemma steps_to_refl w : steps_to w [] w.
Proof. split; [by rewrite set_client_id | by rewrite app_nil_r]. Qed.

Lemma steps_to_trans w1 w2 w3 e1 e2 :
  steps_to w1 e1 w2 -> steps_to w2 e2 w3 -> steps_to w1 (e1 ++ e2) w3.
Proof.
  intros [Hs1 Hw1] [Hs2 Hw2]. split.
  - rewrite Hs2, Hs1. reflexivity.
  - rewrite Hw2, Hw1. by rewrite app_assoc.
Qed.

Lemma steps_to_connected w evs w' :
  steps_to w evs w' -> connected (self w') = connected (self w).
Proof. intros [Hs _]. by rewrite Hs. Qed.

Lemma steps_to_thresholds w evs w' :
  steps_to w evs w' -> thresholds (self w') = thresholds (self w).
Proof. intros [Hs _]. by rewrite Hs. Qed.

Lemma sleep_steps d w : steps_to w [Sleep d] (sleep d w).2.
Proof. split; [by rewrite set_client_id | done]. Qed.

Lemma exchange_steps {A} e (call : C -> Response A * C) w :
  steps_to w [e] (exchange e call w).2.
Proof.
  unfold exchange. destruct (call (client (self w))) as [r c']. by split.
Qed.

(** ** [write_coil] *)

Lemma write_coil_disconnected name v w :
  connected (self w) = false -> write_coil name v w = (false, w).
Proof.
  intros Hc. unfold write_coil, bind, get_connected. by rewrite Hc.
Qed.

Lemma write_coil_unknown name v w :
  coil_map !! name = None -> write_coil name v w = (false, w).
Proof.
  intros Hn. unfold write_coil, bind, get_connected.
  destruct (connected (self w)); simpl; [by rewrite Hn | done].
Qed.

Lemma write_coil_connected name a v w :
  connected (self w) = true -> coil_map !! name = Some a ->
  write_coil name v w =
    (is_reply (client_write_coil a v (client (self w))).1,
     (exchange (WriteCoil a v) (client_write_coil a v) w).2).
Proof.
  intros Hc Hn. unfold write_coil, bind, get_connected, exchange.
  rewrite Hc; simpl. rewrite Hn.
  destruct (client_write_coil a v (client (self w))) as [[u| |] c']; done.
Qed.

(** Either [write_coil] fails without touching anything, or it performs
    exactly one exchange, a write at the address of [name]. *)
Lemma write_coil_cases name v w :
  write_coil name v w = (false, w) \/
  exists a, coil_map !! name = Some a /\ connected (self w) = true /\
            steps_to w [WriteCoil a v] (write_coil name v w).2.
Proof.
  destruct (connected (self w)) eqn:Hc.
  - destruct (coil_map !! name) as [a|] eqn:Hn.
    + right. exists a. repeat split; try done.
      * rewrite (write_coil_connected name a v w Hc Hn); simpl.
        apply exchange_steps.
      * rewrite (write_coil_connected name a v w Hc Hn); simpl.
        apply exchange_steps.
    + left. by apply write_coil_unknown.
  - left. by apply write_coil_disconnected.
Qed.

(** ** The two reads *)

Lemma read_coils_disconnected count w :
  connected (self w) = false -> read_coils count w = (∅, w).
Proof.
  intros Hc. unfold read_coils, bind, get_connected. by rewrite Hc.
Qed.

Lemma read_registers_disconnected w :
  connected (self w) = false -> read_registers w = (∅, w).
Proof.
  intros Hc. unfold read_registers, bind, get_connected. by rewrite Hc.
Qed.

Lemma read_coils_connected count w :
  connected (self w) = true ->
  read_coils count w =
    (match (client_read_coils 0 (default 24 count) (client (self w))).1 with
     | Reply bits => project coil_items bits
     | _ => ∅
     end,
     (exchange (ReadCoils 0 (default 24 count))
               (client_read_coils 0 (default 24 count)) w).2).
Proof.
  intros Hc. unfold read_coils, bind, get_connected, exchange.
  rewrite Hc; simpl.
  destruct (client_read_coils 0 (default 24 count) (client (self w)))
    as [[bits| |] c']; done.
Qed.

Lemma read_registers_connected w :
  connected (self w) = true ->
  read_registers w =
    (match (client_read_holding_registers 0 4 (client (self w))).1 with
     | Reply regs => project register_items regs
     | _ => ∅
     end,
     (exchange (ReadHoldingRegisters 0 4)
               (client_read_holding_registers 0 4) w).2).
Proof.
  intros Hc. unfold read_registers, bind, get_connected, exchange.
  rewrite Hc; simpl.
  destruct (client_read_holding_registers 0 4 (client (self w)))
    as [[regs| |] c']; done.
Qed.

Lemma read_coils_steps count w :
  exists evs, steps_to w evs (read_coils count w).2.
Proof.
  destruct (connected (self w)) eqn:Hc.
  - rewrite read_coils_connected by done. eexists. apply exchange_steps.
  - rewrite read_coils_disconnected by done. eexists. apply steps_to_refl.
Qed.

Lemma read_registers_steps w :
  exists evs, steps_to w evs (read_registers w).2.
Proof.
  destruct (connected (self w)) eqn:Hc.
  - rewrite read_registers_connected by done. eexists. apply exchange_steps.
  - rewrite read_registers_disconnected by done. eexists.
    apply steps_to_refl.
Qed.

Lemma read_coils_dom count w :
  dom (read_coils count w).1 ⊆ dom coil_map.
Proof.
  destruct (connected (self w)) eqn:Hc.
  - rewrite read_coils_connected by done. simpl.
    destruct (client_read_coils 0 (default 24 count) (client (self w))).1;
      [rewrite coil_map_items; apply project_dom | set_solver ..].
  - rewrite read_coils_disconnected by done. set_solver.
Qed.

Lemma read_registers_dom w :
  dom (read_registers w).1 ⊆ dom register_map.
Proof.
  destruct (connected (self w)) eqn:Hc.
  - rewrite read_registers_connected by done. simpl.
    destruct (client_read_holding_registers 0 4 (client (self w))).1;
      [rewrite register_map_items; apply project_dom | set_solver ..].
  - rewrite read_registers_disconnected by done. set_solver.
Qed.

(** [get_system_data] in terms of the two reads. *)
Lemma get_system_data_run w :
  let rc := read_coils None w in
  let rr := read_registers rc.2 in
  let als := evaluate_alerts (thresholds (self rr.2)) rr.1 in
  (get_system_data w).1 =
    {| timestamp := clock rr.2; sd_connected := connected (self rr.2);
       coils := rc.1; registers := rr.1; alerts := als;
       system_fault := bool_decide (0 < length als)%nat |}.
Proof.
  simpl. unfold get_system_data, bind.
  destruct (read_coils None w) as [cs w1]; simpl.
  destruct (read_registers w1) as [rs w2]; done.
Qed.

(** ** [pulse_coil] *)

Lemma pulse_coil_run name duration w :
  pulse_coil name duration w =
    if (write_coil name true w).1
    then (true, (write_coil name false
                   (sleep (default 100%N duration)
                      (write_coil name true w).2).2).2)
    else (false, (write_coil name true w).2).
Proof.
  unfold pulse_coil, bind.
  destruct (write_coil name true w) as [[|] w1]; simpl; [|done].
  destruct (write_coil name false _) as [b w3]; done.
Qed.

(** One call of [pulse_coil] on a known coil: what it puts on the wire, what
    it returns, and what it does on a client that answers every write. *)
Lemma pulse_coil_outcome name a duration w :
  coil_map !! name = Some a ->
  let d := default 100%N duration in
  exists o,
    steps_to w (pulse_events a d o) (pulse_coil name duration w).2 /\
    (pulse_coil name duration w).1 = bool_decide (o = Pulsed) /\
    (connected (self w) = true -> o <> NotSent) /\
    (forall P, accepts_writes P -> P (client (self w)) ->
               connected (self w) = true ->
               o = Pulsed /\ P (client (self (pulse_coil name duration w).2))).
Proof.
  intros Hn d. rewrite pulse_coil_run. fold d.
  destruct (connected (self w)) eqn:Hc.
  - rewrite (write_coil_connected name a true w Hc Hn).
    cbn [fst snd].
    pose proof (exchange_steps (WriteCoil a true)
                  (client_write_coil a true) w) as Hset.
    set (w1 := (exchange (WriteCoil a true) (client_write_coil a true) w).2)
      in *.
    assert (Hcl1 : client (self w1)
                   = (client_write_coil a true (client (self w))).2).
    { unfold w1, exchange.
      by destruct (client_write_coil a true (client (self w))). }
    destruct (is_reply (client_write_coil a true (client (self w))).1)
      eqn:Hr.
    + exists Pulsed.
      pose proof (sleep_steps d w1) as Hsl.
      set (w2 := (sleep d w1).2) in *.
      assert (Hc2 : connected (self w2) = true).
      { rewrite (steps_to_connected _ _ _ Hsl).
        by rewrite (steps_to_connected _ _ _ Hset). }
      rewrite (write_coil_connected name a false w2 Hc2 Hn).
      cbn [fst snd].
      pose proof (exchange_steps (WriteCoil a false)
                    (client_write_coil a false) w2) as Hclr.
      split; [|split; [done|split; [done|]]].
      * apply (steps_to_trans _ _ _ _ _ Hset
                 (steps_to_trans _ _ _ _ _ Hsl Hclr)).
      * intros P Hacc HP _. split; [done|].
        destruct (Hacc a true _ HP) as [_ HP1]. rewrite <- Hcl1 in HP1.
        assert (Hcl2 : client (self w2) = client (self w1)) by done.
        rewrite <- Hcl2 in HP1.
        destruct (Hacc a false _ HP1) as [_ HP2].
        unfold exchange.
        by destruct (client_write_coil a false (client (self w2))).
    + exists SetFailed. split; [|split; [done|split; [done|]]].
      * apply Hset.
      * intros P Hacc HP _.
        destruct (Hacc a true _ HP) as [Hok _]. congruence.
  - rewrite (write_coil_disconnected name true w Hc). cbn [fst snd].
    exists NotSent. split; [|split; [done|split; [done|done]]].
    apply steps_to_refl.
Qed.

(** ** Loops of pulses *)

Lemma for_range_S n (body : M unit) (w : World C) :
  for_range (S n) body w = for_range n body (body w).2.
Proof. simpl. unfold bind. by destruct (body w). Qed.

Lemma pulse_then_sleep_run name d gap (w : World C) :
  (_ <- pulse_coil name (Some d) ;; sleep gap) w
  = sleep gap (pulse_coil name (Some d) w).2.
Proof. unfold bind. by destruct (pulse_coil name (Some d) w). Qed.

(** [n] rounds of "pulse, then pause" put a train of [n] pulses on the
    wire, whatever the client answers. *)
Lemma pulse_loop_train n name a d gap :
  coil_map !! name = Some a ->
  forall w,
  exists os,
    length os = n /\
    steps_to w (pulse_train a d gap os)
      (for_range n (_ <- pulse_coil name (Some d) ;; sleep gap) w).2 /\
    (connected (self w) = true -> Forall (fun o => o <> NotSent) os) /\
    (forall P, accepts_writes P -> P (client (self w)) ->
       connected (self w) = true ->
       os = replicate n Pulsed /\
       P (client (self
            (for_range n (_ <- pulse_coil name (Some d) ;; sleep gap) w).2))).
Proof.
  intros Hn. induction n as [|n IH]; intros w.
  - exists []. split; [done|]. split; [apply steps_to_refl|].
    split; [by constructor|]. by intros P _ HP _.
  - rewrite for_range_S, pulse_then_sleep_run.
    destruct (pulse_coil_outcome name a (Some d) w Hn)
      as (o & Hpulse & _ & Hsent & Hacc).
    cbn [default from_option] in *.
    set (w1 := (pulse_coil name (Some d) w).2) in *.
    pose proof (sleep_steps gap w1) as Hgap.
    set (w2 := (sleep gap w1).2) in *.
    assert (Hstep : steps_to w (pulse_events a d o ++ [Sleep gap]) w2)
      by apply (steps_to_trans _ _ _ _ _ Hpulse Hgap).
    destruct (IH w2) as (os & Hlen & Hrest & Hsents & Haccs).
    exists (o :: os). split; [by rewrite <- Hlen|]. split.
    { pose proof (steps_to_trans _ _ _ _ _ Hstep Hrest) as Hall.
      simpl. by rewrite <- app_assoc in Hall. }
    assert (Hc2 : connected (self w2) = connected (self w))
      by apply (steps_to_connected _ _ _ Hstep).
    split.
    + intros Hc. constructor; [by apply Hsent|].
      apply Hsents. by rewrite Hc2.
    + intros P HP HP0 Hc.
      destruct (Hacc P HP HP0 Hc) as [-> HP1].
      assert (HP2 : P (client (self w2))) by done.
      destruct (Haccs P HP HP2) as [-> HPn]; [by rewrite Hc2|].
      done.
Qed.

Lemma set_attempts_app e1 e2 :
  set_attempts (e1 ++ e2) = (set_attempts e1 + set_attempts e2)%nat.
Proof. unfold set_attempts. by rewrite List.filter_app, length_app. Qed.

Lemma set_attempts_pulse a d o :
  o <> NotSent -> set_attempts (pulse_events a d o) = 1%nat.
Proof. by destruct o. Qed.

Lemma set_attempts_train a d gap os :
  Forall (fun o => o <> NotSent) os ->
  set_attempts (pulse_train a d gap os) = length os.
Proof.
  induction 1 as [|o os Ho _ IH]; [done|].
  simpl. rewrite set_attempts_app, (set_attempts_pulse a d o Ho).
  change (Sleep gap :: pulse_train a d gap os)
    with ([Sleep gap] ++ pulse_train a d gap os).
  rewrite set_attempts_app, IH. done.
Qed.

(** ** The snapshot *)

(** Neither read changes the controller's flags or thresholds. *)
Lemma reads_steps w :
  exists evs, steps_to w evs (read_registers (read_coils None w).2).2.
Proof.
  destruct (read_coils_steps None w) as [e1 H1].
  destruct (read_registers_steps (read_coils None w).2) as [e2 H2].
  exists (e1 ++ e2). apply (steps_to_trans _ _ _ _ _ H1 H2).
Qed.

(** C1: the alerts of a snapshot are evaluated from its register map and
    the controller's thresholds, in the fixed order pressure, flow,
    turbidity, level: "Pressure Alert" is present iff the pressure is below
    [pt_low] or above [pt_high], "Flow Alert" iff the flow is below
    [ft_low], "Turbidity Alert" iff the turbidity is above [turb_high],
    "Low Level Alert" iff the level is below [level_low]; a missing reading
    counts as 50, 25, 5 and 75 respectively; and [system_fault] holds iff
    the alert list is not empty. *)
Theorem alert_evaluation :
  (forall (th : Thresholds) (regs : gmap string Z),
     let pressure := default 50 (regs !! "pressure_value") in
     let flow := default 25 (regs !! "flow_value") in
     let turbidity := default 5 (regs !! "turbidity_value") in
     let level := default 75 (regs !! "water_level") in
     let found := evaluate_alerts th regs in
     sublist found alert_order /\
     ("Pressure Alert" ∈ found <->
        pressure < pt_low th \/ pt_high th < pressure) /\
     ("Flow Alert" ∈ found <-> flow < ft_low th) /\
     ("Turbidity Alert" ∈ found <-> turb_high th < turbidity) /\
     ("Low Level Alert" ∈ found <-> level < level_low th)) /\
  (forall w : World C,
     let d := (get_system_data w).1 in
     alerts d = evaluate_alerts (thresholds (self w)) (registers d) /\
     (system_fault d = true <-> alerts d <> [])).
Proof.
  split; [exact evaluate_alerts_members|].
  intros w. cbv zeta. rewrite get_system_data_run. cbn [alerts registers
    system_fault].
  destruct (reads_steps w) as [evs Hsteps].
  rewrite (steps_to_thresholds _ _ _ Hsteps).
  split; [done|].
  rewrite bool_decide_eq_true.
  destruct (evaluate_alerts _ _); cbn [length]; split; (done || lia).
Qed.

(** C2, as the code has it: [get_system_data] always returns a snapshot.
    Its [connected] field is the controller's flag, which a failed exchange
    does not change.  When the exchange of [read_coils] fails the coil map
    is empty; when the exchange of [read_registers] fails the register map
    is empty and the alerts are those of the defaults, which are none under
    the thresholds of [__init__]. *)
Theorem failed_exchange_snapshot (w : World C) :
  let d := (get_system_data w).1 in
  let w1 := (read_coils None w).2 in
  sd_connected d = connected (self w) /\
  (is_reply (client_read_coils 0 24 (client (self w))).1 = false ->
   coils d = ∅) /\
  (is_reply (client_read_holding_registers 0 4 (client (self w1))).1 = false ->
   registers d = ∅ /\
   (thresholds (self w) = init_thresholds ->
    alerts d = [] /\ system_fault d = false)).
Proof.
  cbv zeta. rewrite get_system_data_run.
  cbn [sd_connected coils registers alerts system_fault].
  destruct (reads_steps w) as [evs Hsteps].
  destruct (read_coils_steps None w) as [e1 H1].
  rewrite (steps_to_connected _ _ _ Hsteps),
    (steps_to_thresholds _ _ _ Hsteps).
  split; [done|]. split.
  - intros Hfail. destruct (connected (self w)) eqn:Hc.
    + rewrite read_coils_connected by done. cbn [fst default from_option].
      by destruct (client_read_coils 0 24 (client (self w))).1.
    + by rewrite read_coils_disconnected.
  - intros Hfail.
    assert (Hempty : (read_registers (read_coils None w).2).1 = ∅).
    { destruct (connected (self (read_coils None w).2)) eqn:Hc.
      - rewrite read_registers_connected by done. cbn [fst].
        by destruct (client_read_holding_registers 0 4
                       (client (self (read_coils None w).2))).1.
      - by rewrite read_registers_disconnected. }
    rewrite Hempty. split; [done|].
    intros ->. by rewrite evaluate_alerts_defaults.
Qed.

(** C8: the keys of a snapshot's coil and register maps are names of the
    point tables, and under the thresholds of [__init__] a snapshot whose
    [connected] field is false has empty maps, no alerts and no fault. *)
Theorem snapshot_invariant (w : World C) :
  thresholds (self w) = init_thresholds ->
  let d := (get_system_data w).1 in
  dom (coils d) ⊆ dom coil_map /\
  dom (registers d) ⊆ dom register_map /\
  (sd_connected d = false ->
   coils d = ∅ /\ registers d = ∅ /\ alerts d = [] /\
   system_fault d = false).
Proof.
  intros Hth. cbv zeta. rewrite get_system_data_run.
  cbn [sd_connected coils registers alerts system_fault].
  destruct (reads_steps w) as [evs Hsteps].
  destruct (read_coils_steps None w) as [e1 H1].
  rewrite (steps_to_connected _ _ _ Hsteps),
    (steps_to_thresholds _ _ _ Hsteps), Hth.
  split; [apply read_coils_dom|]. split; [apply read_registers_dom|].
  intros Hc.
  rewrite (read_coils_disconnected None w Hc). cbn [fst snd].
  rewrite (read_registers_disconnected w Hc). cbn [fst].
  by rewrite evaluate_alerts_defaults.
Qed.

(** ** Guards and pulses *)

(** C9: while the [connected] flag is false, [write_coil] returns [False]
    and the two reads return the empty dict, and nothing is done: the wire
    and the client object are as before the call. *)
Theorem disconnected_no_io (w : World C) name value count :
  connected (self w) = false ->
  write_coil name value w = (false, w) /\
  read_coils count w = (∅, w) /\
  read_registers w = (∅, w).
Proof.
  intros Hc. split; [by apply write_coil_disconnected|].
  split; [by apply read_coils_disconnected
         |by apply read_registers_disconnected].
Qed.

(** C10: when the set write of a pulse fails, [pulse_coil] returns [False]
    in the state the failed set write left: at most that one write of
    [True] went on the wire, and neither the dwell nor the clear write
    follows. *)
Theorem pulse_failed_set_no_clear name duration (w : World C) :
  (write_coil name true w).1 = false ->
  pulse_coil name duration w = (false, (write_coil name true w).2) /\
  exists evs,
    wire (pulse_coil name duration w).2 = wire w ++ evs /\
    (evs = [] \/
     exists a, coil_map !! name = Some a /\ evs = [WriteCoil a true]).
Proof.
  intros Hfail. rewrite pulse_coil_run, Hfail. split; [done|].
  cbn [snd].
  destruct (write_coil_cases name true w) as [-> | (a & Hn & _ & _ & Hw)].
  - exists []. split; [by rewrite app_nil_r | by left].
  - exists [WriteCoil a true]. split; [done|]. right. by exists a.
Qed.

(** C3, as the code has it: [pulse_coil] returns what the set write
    returned.  When the set write succeeds, the dwell (100 ms when no
    duration is given) and exactly one clear write follow, and the call
    returns [True] in the state the clear write left, whatever the clear
    write returned. *)
Theorem pulse_result_is_set_result name duration (w : World C) :
  let d := default 100%N duration in
  (pulse_coil name duration w).1 = (write_coil name true w).1 /\
  ((write_coil name true w).1 = true ->
   exists a,
     coil_map !! name = Some a /\
     wire (pulse_coil name duration w).2
       = wire w ++ [WriteCoil a true; Sleep d; WriteCoil a false] /\
     (pulse_coil name duration w).2
       = (write_coil name false (sleep d (write_coil name true w).2).2).2).
Proof.
  intros d. rewrite pulse_coil_run. fold d.
  destruct (write_coil name true w).1 eqn:Hset; cbn [fst snd];
    (split; [done|]); [|done].
  intros _.
  destruct (write_coil_cases name true w) as [Hw | (a & Hn & Hc & Hs)].
  { rewrite Hw in Hset. done. }
  exists a. split; [done|]. split; [|done].
  pose proof (sleep_steps d (write_coil name true w).2) as Hsl.
  set (w2 := (sleep d (write_coil name true w).2).2) in *.
  assert (Hc2 : connected (self w2) = true).
  { rewrite (steps_to_connected _ _ _ Hsl).
    by rewrite (steps_to_connected _ _ _ Hs). }
  rewrite (write_coil_connected name a false w2 Hc2 Hn). cbn [snd].
  pose proof (exchange_steps (WriteCoil a false)
                (client_write_coil a false) w2) as Hclr.
  apply (steps_to_trans _ _ _ _ _ Hs (steps_to_trans _ _ _ _ _ Hsl Hclr)).
Qed.

(** ** Counting set writes *)

Lemma bind_run {A B} (m : M A) (k : A -> M B) (w : World C) :
  bind m k w = k (m w).1 (m w).2.
Proof. unfold bind. by destruct (m w). Qed.

Lemma attempts_trans w1 w2 w3 n1 n2 :
  attempts w1 n1 w2 -> attempts w2 n2 w3 -> attempts w1 (n1 + n2) w3.
Proof.
  intros (e1 & Hs1 & Hn1) (e2 & Hs2 & Hn2). exists (e1 ++ e2).
  split; [apply (steps_to_trans _ _ _ _ _ Hs1 Hs2)|].
  intros Hc. rewrite set_attempts_app, Hn1 by done.
  rewrite Hn2; [done|]. by rewrite (steps_to_connected _ _ _ Hs1).
Qed.

Lemma sleep_attempts d w : attempts w 0 (sleep d w).2.
Proof. exists [Sleep d]. split; [apply sleep_steps | done]. Qed.

Lemma clear_write_attempts name w :
  attempts w 0 (write_coil name false w).2.
Proof.
  destruct (write_coil_cases name false w) as [-> | (a & _ & _ & Hs)].
  - exists []. split; [apply steps_to_refl | done].
  - exists [WriteCoil a false]. split; [exact Hs | done].
Qed.

Lemma pulse_coil_attempts name a duration w :
  coil_map !! name = Some a -> attempts w 1 (pulse_coil name duration w).2.
Proof.
  intros Hn.
  destruct (pulse_coil_outcome name a duration w Hn)
    as (o & Hs & _ & Hsent & _).
  exists (pulse_events a (default 100%N duration) o). split; [exact Hs|].
  intros Hc. by apply set_attempts_pulse, Hsent.
Qed.

Lemma pulse_loop_attempts n name a d gap w :
  coil_map !! name = Some a ->
  attempts w n
    (for_range n (_ <- pulse_coil name (Some d) ;; sleep gap) w).2.
Proof.
  intros Hn.
  destruct (pulse_loop_train n name a d gap Hn w)
    as (os & Hlen & Hs & Hsent & _).
  exists (pulse_train a d gap os). split; [exact Hs|].
  intros Hc. rewrite set_attempts_train by auto. done.
Qed.

(** ** [adjust_parameter] *)

Lemma adjust_parameter_known param inc_coil dec_coil direction steps w :
  param_map !! param = Some (inc_coil, dec_coil) ->
  adjust_parameter param direction steps w =
    (true,
     (for_range (Z.to_nat (default 1 steps))
        (_ <- pulse_coil (if String.eqb direction "up" then inc_coil
                          else dec_coil) (Some 100%N) ;;
         sleep 100) w).2).
Proof.
  intros Hp. unfold adjust_parameter. rewrite Hp. by rewrite bind_run.
Qed.

(** C5, as the code has it: for a parameter outside pressure, flow,
    turbidity and level, [adjust_parameter] returns [False] and does
    nothing.  For a parameter among them no direction is rejected: "up"
    selects the increment coil and every other direction the decrement
    coil.  The call then puts on the wire a train of exactly [steps] pulses
    (one when [steps] is not given, none for a negative [steps]) of that
    one coil, each with a dwell of 100 ms and followed by a pause of
    100 ms, and returns [True].  While connected every pulse reaches the
    client, and on a client that answers every write every pulse is a
    complete one. *)
Theorem adjust_parameter_pulses param direction steps (w : World C) :
  (param ∉ parameter_names ->
   adjust_parameter param direction steps w = (false, w)) /\
  (forall inc_coil dec_coil,
     param_map !! param = Some (inc_coil, dec_coil) ->
     let coil := if String.eqb direction "up" then inc_coil else dec_coil in
     let res := adjust_parameter param direction steps w in
     res.1 = true /\
     exists a os,
       coil_map !! coil = Some a /\
       length os = Z.to_nat (default 1 steps) /\
       wire res.2 = wire w ++ pulse_train a 100 100 os /\
       (connected (self w) = true -> Forall (fun o => o <> NotSent) os) /\
       (forall P, accepts_writes P -> P (client (self w)) ->
          connected (self w) = true ->
          os = replicate (Z.to_nat (default 1 steps)) Pulsed)).
Proof.
  split.
  - intros Hp. unfold adjust_parameter.
    by rewrite (param_map_unknown param Hp).
  - intros inc_coil dec_coil Hp. cbv zeta.
    rewrite (adjust_parameter_known _ _ _ direction steps w Hp).
    cbn [fst snd]. split; [done|].
    destruct (param_map_coils _ _ _ Hp) as [[ai Hi] [ad Hd]].
    set (coil := if String.eqb direction "up" then inc_coil else dec_coil).
    assert (Hcoil : exists a, coil_map !! coil = Some a).
    { unfold coil. destruct (String.eqb direction "up"); eauto. }
    destruct Hcoil as [a Ha]. exists a.
    destruct (pulse_loop_train (Z.to_nat (default 1 steps)) coil a
                100 100 Ha w)
      as (os & Hlen & [_ Hwire] & Hsent & Hacc).
    exists os. split; [done|]. split; [done|]. split; [done|].
    split; [done|].
    intros P HP HP0 Hc. by destruct (Hacc P HP HP0 Hc).
Qed.

(** ** [run_scenario] *)

Lemma run_scenario_some scenario ctl tr t :
  run_scenario scenario
    {| plc_controller := Some ctl; p_wire := tr; p_clock := t |}
  = ((run_scenario_try scenario
        {| self := ctl; wire := tr; clock := t |}).1,
     {| plc_controller :=
          Some (self (run_scenario_try scenario
                        {| self := ctl; wire := tr; clock := t |}).2);
        p_wire := wire (run_scenario_try scenario
                          {| self := ctl; wire := tr; clock := t |}).2;
        p_clock := clock (run_scenario_try scenario
                            {| self := ctl; wire := tr; clock := t |}).2 |}).
Proof.
  unfold run_scenario. cbn [plc_controller p_wire p_clock].
  by destruct (run_scenario_try scenario _).
Qed.

Lemma run_scenario_try_unknown scenario (w : World C) :
  scenario ∉ scenario_names -> run_scenario_try scenario w = (false, w).
Proof.
  unfold scenario_names. rewrite !not_elem_of_cons.
  intros (H1 & H2 & H3 & H4 & _). unfold run_scenario_try.
  apply String.eqb_neq in H1, H2, H3, H4. by rewrite H1, H2, H3, H4.
Qed.

Lemma run_scenario_try_low_pressure (w : World C) :
  run_scenario_try "low_pressure" w =
    (true,
     (for_range 8 (_ <- pulse_coil "pt_dec_sim" (Some 100%N) ;; sleep 100) w).2).
Proof. unfold run_scenario_try. cbn [String.eqb Ascii.eqb Bool.eqb].
  by rewrite bind_run. Qed.

Lemma pt_dec_sim_address : coil_map !! "pt_dec_sim" = Some 17.
Proof. vm_compute. reflexivity. Qed.

(** C6: with a controller in place, scenario "low_pressure" puts on the
    wire a train of exactly 8 pulses of the coil [pt_dec_sim] (address 17),
    each with a dwell of 100 ms and followed by a pause of 100 ms, and
    nothing else, and returns [True]; while connected every pulse reaches
    the client, and on a client that answers every write every pulse is a
    complete one.  A scenario name outside normal_startup, low_pressure,
    high_turbidity and multiple_faults returns [False] and does nothing. *)
Theorem run_scenario_low_pressure_and_unknown :
  (forall (ctl : PLCWebController C) tr t,
     let res := run_scenario "low_pressure"
                  {| plc_controller := Some ctl; p_wire := tr;
                     p_clock := t |} in
     res.1 = true /\
     exists os,
       length os = 8%nat /\
       p_wire res.2 = tr ++ pulse_train 17 100 100 os /\
       (connected ctl = true -> Forall (fun o => o <> NotSent) os) /\
       (forall P, accepts_writes P -> P (client ctl) ->
          connected ctl = true -> os = replicate 8 Pulsed)) /\
  (forall scenario (p : Process C),
     scenario ∉ scenario_names -> run_scenario scenario p = (false, p)).
Proof.
  split.
  - intros ctl tr t. cbv zeta.
    rewrite run_scenario_some, run_scenario_try_low_pressure.
    cbn [fst snd p_wire]. split; [done|].
    destruct (pulse_loop_train 8 "pt_dec_sim" 17 100 100
                pt_dec_sim_address {| self := ctl; wire := tr; clock := t |})
      as (os & Hlen & [_ Hwire] & Hsent & Hacc).
    exists os. split; [done|]. split; [done|]. split; [done|].
    intros P HP HP0 Hc. by destruct (Hacc P HP HP0 Hc).
  - intros scenario [[ctl|] tr t] Hs; [|done].
    rewrite run_scenario_some, run_scenario_try_unknown by done. done.
Qed.

Lemma run_scenario_try_known scenario (w : World C) :
  scenario ∈ scenario_names ->
  (run_scenario_try scenario w).1 = true /\
  attempts w (scenario_pulses scenario) (run_scenario_try scenario w).2.
Proof.
  unfold scenario_names. rewrite !elem_of_cons, elem_of_nil.
  intros [->|[->|[->|[->|[]]]]]; unfold run_scenario_try, scenario_pulses;
    cbn [String.eqb Ascii.eqb Bool.eqb]; rewrite !bind_run;
    cbn [fst snd ret]; (split; [done|]).
  - change 1%nat with (0 + (0 + 1))%nat.
    eapply attempts_trans; [apply clear_write_attempts|].
    eapply attempts_trans; [apply sleep_attempts|].
    apply (pulse_coil_attempts "start_button" 3 None). by vm_compute.
  - apply (pulse_loop_attempts 8 "pt_dec_sim" 17). by vm_compute.
  - apply (pulse_loop_attempts 8 "turb_inc_sim" 20). by vm_compute.
  - change 24%nat with (8 + (6 + 10))%nat.
    eapply attempts_trans;
      [apply (pulse_loop_attempts 8 "pt_dec_sim" 17); by vm_compute|].
    eapply attempts_trans;
      [apply (pulse_loop_attempts 6 "ft_dec_sim" 19); by vm_compute|].
    apply (pulse_loop_attempts 10 "turb_inc_sim" 20). by vm_compute.
Qed.

(** C7, as the code has it: neither [adjust_parameter] nor [run_scenario]
    stops at a pulse that fails, and neither looks at what a pulse
    returned.  For a known parameter, and for a known scenario with a
    controller in place, the call returns [True] whatever the client
    answered, and while connected it attempts every one of its set writes:
    as many as [steps] (1 when not given) for an adjustment, and 1, 8, 8 and 24 for the four
    scenarios. *)
Theorem best_effort_always_true :
  (forall param direction steps (w : World C),
     param ∈ parameter_names ->
     let res := adjust_parameter param direction steps w in
     res.1 = true /\
     exists evs,
       wire res.2 = wire w ++ evs /\
       (connected (self w) = true ->
        set_attempts evs = Z.to_nat (default 1 steps))) /\
  (forall scenario (ctl : PLCWebController C) tr t,
     scenario ∈ scenario_names ->
     let res := run_scenario scenario
                  {| plc_controller := Some ctl; p_wire := tr;
                     p_clock := t |} in
     res.1 = true /\
     exists evs,
       p_wire res.2 = tr ++ evs /\
       (connected ctl = true ->
        set_attempts evs = scenario_pulses scenario)).
Proof.
  split.
  - intros param direction steps w Hp. cbv zeta.
    destruct (param_map_known param Hp) as (inc_coil & dec_coil & Hmap).
    rewrite (adjust_parameter_known _ _ _ direction steps w Hmap).
    cbn [fst snd]. split; [done|].
    destruct (param_map_coils _ _ _ Hmap) as [[ai Hi] [ad Hd]].
    set (coil := if String.eqb direction "up" then inc_coil else dec_coil).
    assert (Hcoil : exists a, coil_map !! coil = Some a).
    { unfold coil. destruct (String.eqb direction "up"); eauto. }
    destruct Hcoil as [a Ha].
    destruct (pulse_loop_attempts (Z.to_nat (default 1 steps)) coil a
                100 100 w Ha)
      as (evs & [_ Hwire] & Hn).
    by exists evs.
  - intros scenario ctl tr t Hs. cbv zeta. rewrite run_scenario_some.
    cbn [fst snd p_wire].
    destruct (run_scenario_try_known scenario
                {| self := ctl; wire := tr; clock := t |} Hs)
      as (Hres & evs & [_ Hwire] & Hn).
    split; [done|]. by exists evs.
Qed.

End Properties.

(** ** Runs on the simulated PLC *)

(** Once its script is exhausted the simulated PLC answers every write. *)
Lemma sim_accepts : accepts_writes (fun c : SimPLC => sim_script c = []).
Proof.
  intros a v c Hc. unfold client_write_coil; simpl. unfold sim_next.
  rewrite Hc. simpl. by split.
Qed.

(** C2, counterexample: the coil read is refused while the register read
    is answered with a pressure of 15.  The snapshot is not a disconnected
    one: [connected] is true, the register map is filled and an alert is
    raised. *)
Lemma failed_coil_read_keeps_registers :
  let w := sim_world true [15; 25; 5; 75] [Refuse] in
  let d := (get_system_data w).1 in
  is_reply (client_read_coils 0 24 (client (self w))).1 = false /\
  sd_connected d = true /\
  registers d !! "pressure_value" = Some 15 /\
  alerts d = ["Pressure Alert"] /\
  system_fault d = true.
Proof. vm_compute. repeat split. Qed.

Lemma failed_exchange_snapshot_witness :
  let w := sim_world true [15; 25; 5; 75] [Refuse; Crash] in
  let d := (get_system_data w).1 in
  is_reply (client_read_coils 0 24 (client (self w))).1 = false /\
  is_reply (client_read_holding_registers 0 4
              (client (self (read_coils None w).2))).1 = false /\
  thresholds (self w) = init_thresholds /\
  sd_connected d = true /\ coils d = ∅ /\ registers d = ∅ /\
  alerts d = [] /\ system_fault d = false.
Proof.
  cbv zeta.
  destruct (failed_exchange_snapshot
              (sim_world true [15; 25; 5; 75] [Refuse; Crash]))
    as (Hconn & Hcoils & Hregs).
  assert (H1 : is_reply (client_read_coils 0 24
                 (client (self (sim_world true [15; 25; 5; 75]
                                  [Refuse; Crash])))).1 = false)
    by (vm_compute; reflexivity).
  assert (H2 : is_reply (client_read_holding_registers 0 4
                 (client (self (read_coils None
                    (sim_world true [15; 25; 5; 75]
                       [Refuse; Crash])).2))).1 = false)
    by (vm_compute; reflexivity).
  destruct (Hregs H2) as [Hempty Halerts].
  destruct (Halerts eq_refl) as [Hnone Hfault].
  split; [exact H1|]. split; [exact H2|]. split; [reflexivity|].
  split; [exact Hconn|]. split; [exact (Hcoils H1)|].
  split; [exact Hempty|]. split; [exact Hnone | exact Hfault].
Defined.

Lemma snapshot_invariant_witness :
  let w := sim_world false [50; 25; 5; 75] [] in
  let d := (get_system_data w).1 in
  thresholds (self w) = init_thresholds /\
  dom (coils d) ⊆ dom coil_map /\
  dom (registers d) ⊆ dom register_map /\
  (sd_connected d = false ->
   coils d = ∅ /\ registers d = ∅ /\ alerts d = [] /\
   system_fault d = false).
Proof.
  cbv zeta. split; [reflexivity|].
  apply (snapshot_invariant (sim_world false [50; 25; 5; 75] [])).
  reflexivity.
Defined.

Lemma disconnected_no_io_witness :
  let w := sim_world false [50; 25; 5; 75] [] in
  connected (self w) = false /\
  write_coil "pump" true w = (false, w) /\
  read_coils None w = (∅, w) /\
  read_registers w = (∅, w).
Proof.
  cbv zeta. split; [reflexivity|].
  apply (disconnected_no_io (sim_world false [50; 25; 5; 75] [])).
  reflexivity.
Defined.

Lemma pulse_failed_set_no_clear_witness :
  let w := sim_world true [] [Refuse] in
  (write_coil "pump" true w).1 = false /\
  pulse_coil "pump" (Some 100%N) w = (false, (write_coil "pump" true w).2) /\
  exists evs,
    wire (pulse_coil "pump" (Some 100%N) w).2 = wire w ++ evs /\
    (evs = [] \/
     exists a, coil_map !! "pump" = Some a /\ evs = [WriteCoil a true]).
Proof.
  cbv zeta. split; [vm_compute; reflexivity|].
  apply (pulse_failed_set_no_clear "pump" (Some 100%N) (sim_world true [] [Refuse])).
  vm_compute; reflexivity.
Defined.

(** On a PLC that answers both writes, a pulse leaves the coil cleared. *)
Example pulse_ends_cleared :
  let w := sim_world true [] [] in
  (pulse_coil "start_button" None w).1 = true /\
  wire (pulse_coil "start_button" None w).2
    = [WriteCoil 3 true; Sleep 100; WriteCoil 3 false] /\
  sim_coils (client (self (pulse_coil "start_button" None w).2)) !! 3%nat
    = Some false.
Proof. vm_compute. repeat split. Qed.

(** C3, counterexample: the set write is answered and the clear write is
    refused.  [pulse_coil] returns [True] all the same, and the coil is
    left set. *)
Lemma pulse_hides_failed_clear :
  let w := sim_world true [] [Answer; Refuse] in
  let w1 := (sleep 100 (write_coil "pump" true w).2).2 in
  (write_coil "pump" true w).1 = true /\
  (write_coil "pump" false w1).1 = false /\
  (pulse_coil "pump" (Some 100%N) w).1 = true /\
  sim_coils (client (self (pulse_coil "pump" (Some 100%N) w).2)) !! 0%nat = Some true.
Proof. vm_compute. repeat split. Qed.

Lemma pulse_result_is_set_result_witness :
  let w := sim_world true [] [Answer; Refuse] in
  (write_coil "pump" true w).1 = true /\
  (pulse_coil "pump" (Some 100%N) w).1 = true /\
  exists a,
    coil_map !! "pump" = Some a /\
    wire (pulse_coil "pump" (Some 100%N) w).2
      = wire w ++ [WriteCoil a true; Sleep 100; WriteCoil a false] /\
    (pulse_coil "pump" (Some 100%N) w).2
      = (write_coil "pump" false
           (sleep 100 (write_coil "pump" true w).2).2).2.
Proof.
  cbv zeta.
  destruct (pulse_result_is_set_result "pump" (Some 100%N)
              (sim_world true [] [Answer; Refuse])) as [Hres Hset].
  assert (H1 : (write_coil "pump" true
                  (sim_world true [] [Answer; Refuse])).1 = true)
    by (vm_compute; reflexivity).
  split; [exact H1|]. split; [by rewrite Hres|]. exact (Hset H1).
Defined.

(** C5, counterexample: a direction that is neither "up" nor "down" is not
    rejected; it pulses the decrement coil. *)
Lemma unknown_direction_pulses_decrement :
  let w := sim_world true [] [] in
  ("sideways" ∉ ["up"; "down"]) /\
  (adjust_parameter "pressure" "sideways" (Some 1) w).1 = true /\
  wire (adjust_parameter "pressure" "sideways" (Some 1) w).2
    = [WriteCoil 17 true; Sleep 100; WriteCoil 17 false; Sleep 100].
Proof.
  cbv zeta. split.
  - rewrite !not_elem_of_cons. repeat split; try discriminate.
    apply not_elem_of_nil.
  - vm_compute. by split.
Qed.

Lemma adjust_parameter_pulses_witness :
  let w := sim_world true [] [] in
  ("bogus" ∉ parameter_names) /\
  param_map !! "pressure" = Some ("pt_inc_sim", "pt_dec_sim") /\
  param_map !! "level" = Some ("level_inc_sim", "level_dec_sim") /\
  adjust_parameter "bogus" "up" (Some 1) w = (false, w) /\
  (adjust_parameter "pressure" "up" (Some 3) w).1 = true /\
  wire (adjust_parameter "pressure" "up" (Some 3) w).2
    = pulse_train 16 100 100 [Pulsed; Pulsed; Pulsed] /\
  (adjust_parameter "level" "down" None w).1 = true /\
  wire (adjust_parameter "level" "down" None w).2
    = pulse_train 23 100 100 [Pulsed].
Proof.
  cbv zeta.
  assert (Hbogus : "bogus" ∉ parameter_names).
  { unfold parameter_names. rewrite !not_elem_of_cons.
    repeat split; try discriminate. apply not_elem_of_nil. }
  assert (Hpt : param_map !! "pressure" = Some ("pt_inc_sim", "pt_dec_sim"))
    by (vm_compute; reflexivity).
  assert (Hlv : param_map !! "level"
                = Some ("level_inc_sim", "level_dec_sim"))
    by (vm_compute; reflexivity).
  split; [exact Hbogus|]. split; [exact Hpt|]. split; [exact Hlv|].
  split; [|split; [|split; [|split]]].
  - destruct (adjust_parameter_pulses "bogus" "up" (Some 1)
                (sim_world true [] [])) as [Hunknown _].
    exact (Hunknown Hbogus).
  - destruct (adjust_parameter_pulses "pressure" "up" (Some 3)
                (sim_world true [] [])) as [_ Hknown].
    by destruct (Hknown _ _ Hpt) as [Hres _].
  - destruct (adjust_parameter_pulses "pressure" "up" (Some 3)
                (sim_world true [] [])) as [_ Hknown].
    destruct (Hknown _ _ Hpt)
      as (_ & a & os & Ha & _ & Hwire & _ & Hacc).
    vm_compute in Ha. injection Ha as <-.
    rewrite (Hacc _ sim_accepts eq_refl eq_refl) in Hwire. exact Hwire.
  - destruct (adjust_parameter_pulses "level" "down" None
                (sim_world true [] [])) as [_ Hknown].
    by destruct (Hknown _ _ Hlv) as [Hres _].
  - destruct (adjust_parameter_pulses "level" "down" None
                (sim_world true [] [])) as [_ Hknown].
    destruct (Hknown _ _ Hlv)
      as (_ & a & os & Ha & _ & Hwire & _ & Hacc).
    vm_compute in Ha. injection Ha as <-.
    rewrite (Hacc _ sim_accepts eq_refl eq_refl) in Hwire. exact Hwire.
Defined.

Lemma run_scenario_low_pressure_and_unknown_witness :
  let p := sim_process true [] [] in
  ("bogus" ∉ scenario_names) /\
  run_scenario "bogus" p = (false, p) /\
  (run_scenario "low_pressure" p).1 = true /\
  p_wire (run_scenario "low_pressure" p).2
    = pulse_train 17 100 100 (replicate 8 Pulsed).
Proof.
  cbv zeta.
  assert (Hbogus : "bogus" ∉ scenario_names).
  { unfold scenario_names. rewrite !not_elem_of_cons.
    repeat split; try discriminate. apply not_elem_of_nil. }
  destruct (run_scenario_low_pressure_and_unknown (C := SimPLC))
    as [Hlow Hunknown].
  split; [exact Hbogus|]. split; [exact (Hunknown _ _ Hbogus)|].
  destruct (Hlow (sim_controller true [] []) [] 0%N)
    as (Hres & os & _ & Hwire & _ & Hacc).
  rewrite (Hacc _ sim_accepts eq_refl eq_refl) in Hwire.
  split; [exact Hres | exact Hwire].
Defined.

(** C7, counterexample: the client refuses every write, so every pulse of
    the adjustment and of the scenario fails, and both calls return
    [True]. *)
Lemma failed_pulses_reported_as_success :
  let w := sim_world true [] (replicate 3 Refuse) in
  let p := sim_process true [] (replicate 8 Refuse) in
  (pulse_coil "pt_inc_sim" (Some 100%N) w).1 = false /\
  wire (adjust_parameter "pressure" "up" (Some 3) w).2
    = pulse_train 16 100 100 [SetFailed; SetFailed; SetFailed] /\
  (adjust_parameter "pressure" "up" (Some 3) w).1 = true /\
  p_wire (run_scenario "low_pressure" p).2
    = pulse_train 17 100 100 (replicate 8 SetFailed) /\
  (run_scenario "low_pressure" p).1 = true.
Proof. vm_compute. repeat split. Qed.

Lemma best_effort_always_true_witness :
  let w := sim_world true [] (replicate 3 Refuse) in
  let p := sim_process true [] (replicate 24 Crash) in
  "pressure" ∈ parameter_names /\
  "multiple_faults" ∈ scenario_names /\
  (adjust_parameter "pressure" "up" (Some 3) w).1 = true /\
  (exists evs,
     wire (adjust_parameter "pressure" "up" (Some 3) w).2 = wire w ++ evs /\
     set_attempts evs = 3%nat) /\
  (run_scenario "multiple_faults" p).1 = true /\
  (exists evs,
     p_wire (run_scenario "multiple_faults" p).2 = [] ++ evs /\
     set_attempts evs = 24%nat).
Proof.
  cbv zeta.
  assert (Hparam : "pressure" ∈ parameter_names)
    by (unfold parameter_names; rewrite !elem_of_cons; auto).
  assert (Hscen : "multiple_faults" ∈ scenario_names)
    by (unfold scenario_names; rewrite !elem_of_cons; auto 6).
  destruct (best_effort_always_true (C := SimPLC)) as [Hadj Hrun].
  destruct (Hadj "pressure" "up" (Some 3)
              (sim_world true [] (replicate 3 Refuse)) Hparam)
    as (Hres1 & evs1 & Hwire1 & Hn1).
  destruct (Hrun "multiple_faults"
              (sim_controller true [] (replicate 24 Crash)) [] 0%N Hscen)
    as (Hres2 & evs2 & Hwire2 & Hn2).
  split; [exact Hparam|]. split; [exact Hscen|].
  split; [exact Hres1|]. split; [exists evs1; split; [exact Hwire1|]|].
  { exact (Hn1 eq_refl). }
  split; [exact Hres2|]. exists evs2. split; [exact Hwire2|].
  exact (Hn2 eq_refl).
Defined.

(** * The rest of the backend: reads, sessions, monitoring, web layer *)

Section ServerProperties.

Context {C : Type} {client_ops : ModbusClient C}
  {session_ops : ModbusSession C}.
Context {S : Type} {socketio_ops : SocketIO S}.

Notation "x <- m ;; k" := (bind m (fun x => k))
  (at level 100, m at next level, right associativity).

Implicit Types w : World C.
Implicit Types p : Process C.

(** ** One exchange *)

Lemma exchange_self {A} e (call : C -> Response A * C) w :
  self (exchange e call w).2 = set_client (call (client (self w))).2 (self w)
  /\ wire (exchange e call w).2 = wire w ++ [e].
Proof. unfold exchange. by destruct (call (client (self w))). Qed.

(** ** The two reads of a snapshot *)

Lemma reads_connected w :
  connected (self w) = true ->
  steps_to w [ReadCoils 0 24; ReadHoldingRegisters 0 4]
    (read_registers (read_coils None w).2).2.
Proof.
  intros Hc. rewrite (read_coils_connected None w Hc).
  cbn [fst snd default from_option].
  pose proof (exchange_steps (ReadCoils 0 24) (client_read_coils 0 24) w)
    as H1.
  set (w1 := (exchange (ReadCoils 0 24) (client_read_coils 0 24) w).2) in *.
  assert (Hc1 : connected (self w1) = true)
    by (by rewrite (steps_to_connected _ _ _ H1)).
  rewrite (read_registers_connected w1 Hc1). cbn [snd].
  apply (steps_to_trans _ _ _ _ _ H1). apply exchange_steps.
Qed.

Lemma reads_disconnected w :
  connected (self w) = false ->
  (read_registers (read_coils None w).2).2 = w.
Proof.
  intros Hc. rewrite (read_coils_disconnected None w Hc). cbn [snd].
  by rewrite (read_registers_disconnected w Hc).
Qed.

Lemma get_system_data_world w :
  (get_system_data w).2 =
    {| self := set_last_data (get_system_data w).1
                 (self (read_registers (read_coils None w).2).2);
       wire := wire (read_registers (read_coils None w).2).2;
       clock := clock (read_registers (read_coils None w).2).2 |}.
Proof.
  unfold get_system_data, bind.
  destruct (read_coils None w) as [cs w1]; cbn [fst snd].
  destruct (read_registers w1) as [rs w2]; done.
Qed.

(** What [get_system_data] leaves behind, in both cases of the flag. *)
Lemma get_system_data_effect w :
  let r := get_system_data w in
  last_data (self r.2) = Some r.1 /\
  connected (self r.2) = connected (self w) /\
  monitoring (self r.2) = monitoring (self w) /\
  thresholds (self r.2) = thresholds (self w) /\
  sd_connected r.1 = connected (self w) /\
  wire r.2 = wire w ++ (if connected (self w)
                        then [ReadCoils 0 24; ReadHoldingRegisters 0 4]
                        else []).
Proof.
  cbv zeta. rewrite get_system_data_world, get_system_data_run.
  cbn [self wire last_data connected monitoring thresholds set_last_data
       sd_connected].
  destruct (connected (self w)) eqn:Hc.
  - destruct (reads_connected w Hc) as [Hself Hwire].
    rewrite Hself. cbn [connected monitoring thresholds set_client].
    by rewrite Hc.
  - rewrite (reads_disconnected w Hc), Hc. by rewrite app_nil_r.
Qed.

(** X1: a call of [get_system_data] on a connected controller performs
    exactly two exchanges, the read of 24 coils and then the read of 4
    registers, whatever the first one answered; on a disconnected
    controller it performs none.  Either way the snapshot it returns
    becomes [last_data] and the flags of the controller stay as they
    were. *)
Theorem snapshot_reads_both w :
  let r := get_system_data w in
  wire r.2 = wire w ++ (if connected (self w)
                        then [ReadCoils 0 24; ReadHoldingRegisters 0 4]
                        else []) /\
  last_data (self r.2) = Some r.1 /\
  connected (self r.2) = connected (self w) /\
  monitoring (self r.2) = monitoring (self w) /\
  thresholds (self r.2) = thresholds (self w).
Proof.
  destruct (get_system_data_effect w) as (Hl & Hc & Hm & Ht & _ & Hw).
  cbv zeta. by repeat split.
Qed.

(** X2: when the client answers a read, the dict returned holds, for every
    point of the table, the value at the point's address in the answer, and
    no entry for a point whose address lies beyond the answer; when the
    exchange fails, by an error response or by an exception, the dict is
    empty.  This holds for the coils and for the registers. *)
Theorem reads_map_points w count :
  connected (self w) = true ->
  let coils_answer :=
    (client_read_coils 0 (default 24 count) (client (self w))).1 in
  let registers_answer :=
    (client_read_holding_registers 0 4 (client (self w))).1 in
  (forall bits, coils_answer = Reply bits ->
     forall name a, coil_map !! name = Some a ->
       (read_coils count w).1 !! name = bits !! Z.to_nat a) /\
  (is_reply coils_answer = false -> (read_coils count w).1 = ∅) /\
  (forall regs, registers_answer = Reply regs ->
     forall name a, register_map !! name = Some a ->
       (read_registers w).1 !! name = regs !! Z.to_nat a) /\
  (is_reply registers_answer = false -> (read_registers w).1 = ∅).
Proof.
  intros Hc. cbv zeta.
  rewrite (read_coils_connected count w Hc),
    (read_registers_connected w Hc). cbn [fst].
  split; [|split; [|split]].
  - intros bits -> name a Hname.
    rewrite coil_map_items in Hname.
    apply elem_of_list_to_map_2 in Hname.
    by apply project_lookup; [apply coil_items_NoDup|].
  - by destruct (client_read_coils 0 _ _).1.
  - intros regs -> name a Hname.
    rewrite register_map_items in Hname.
    apply elem_of_list_to_map_2 in Hname.
    by apply project_lookup; [apply register_items_NoDup|].
  - by destruct (client_read_holding_registers 0 4 _).1.
Qed.

(** X3: a coil name that is not in [coil_map] is rejected before any I/O:
    [write_coil] and [pulse_coil] return [False] and leave everything as it
    was, connected or not. *)
Theorem unknown_point_no_io w name value duration :
  coil_map !! name = None ->
  write_coil name value w = (false, w) /\
  pulse_coil name duration w = (false, w).
Proof.
  intros Hname. split; [by apply write_coil_unknown|].
  rewrite pulse_coil_run.
  by rewrite (write_coil_unknown name true w Hname).
Qed.

(** X20: on a connected controller a write to a known coil performs exactly
    one exchange, at the coil's address, and returns [True] exactly when
    the client acknowledged it: an error response and an exception both
    give [False], and neither is passed on to the caller. *)
Theorem write_coil_reports_answer name a value w :
  connected (self w) = true -> coil_map !! name = Some a ->
  let answer := client_write_coil a value (client (self w)) in
  let r := write_coil name value w in
  r.1 = is_reply answer.1 /\
  wire r.2 = wire w ++ [WriteCoil a value] /\
  self r.2 = set_client answer.2 (self w).
Proof.
  intros Hc Hname. cbv zeta.
  rewrite (write_coil_connected name a value w Hc Hname). cbn [fst snd].
  destruct (exchange_self (WriteCoil a value) (client_write_coil a value) w)
    as [Hself Hwire].
  by rewrite Hself, Hwire.
Qed.

(** ** Kinds of events *)

Lemma emits_only_refl kind w : emits_only kind w w.
Proof. exists []. split; [apply steps_to_refl | constructor]. Qed.

Lemma emits_only_trans kind w1 w2 w3 :
  emits_only kind w1 w2 -> emits_only kind w2 w3 -> emits_only kind w1 w3.
Proof.
  intros (e1 & Hs1 & Hk1) (e2 & Hs2 & Hk2). exists (e1 ++ e2).
  split; [apply (steps_to_trans _ _ _ _ _ Hs1 Hs2)|].
  by apply Forall_app.
Qed.

Lemma emits_only_connected kind w w' :
  emits_only kind w w' -> connected (self w') = connected (self w).
Proof. intros (evs & Hs & _). apply (steps_to_connected _ _ _ Hs). Qed.

Lemma emits_only_sleep kind d w :
  kind (Sleep d) = true -> emits_only kind w (sleep d w).2.
Proof.
  intros Hk. exists [Sleep d]. split; [apply sleep_steps|].
  by repeat constructor.
Qed.


(** A loop whose body keeps an invariant and emits only [kind] does so as
    a whole. *)
Lemma for_range_emits_only kind (I : World C -> Prop) (body : M unit) n :
  (forall w, I w -> emits_only kind w (body w).2 /\ I (body w).2) ->
  forall w, I w ->
    emits_only kind w (for_range n body w).2 /\ I (for_range n body w).2.
Proof.
  intros Hbody. induction n as [|n IH]; intros w Hw.
  - split; [apply emits_only_refl | done].
  - rewrite for_range_S. destruct (Hbody w Hw) as [Hstep Hinv].
    destruct (IH _ Hinv) as [Hrest Hinv'].
    split; [apply (emits_only_trans _ _ _ _ Hstep Hrest) | done].
Qed.

Lemma write_coil_actuation name value w :
  emits_only is_actuation w (write_coil name value w).2.
Proof.
  destruct (write_coil_cases name value w) as [-> | (a & _ & _ & Hs)].
  - apply emits_only_refl.
  - exists [WriteCoil a value]. split; [exact Hs | by repeat constructor].
Qed.

Lemma pulse_coil_actuation name duration w :
  emits_only is_actuation w (pulse_coil name duration w).2.
Proof.
  rewrite pulse_coil_run.
  pose proof (write_coil_actuation name true w) as Hset.
  destruct (write_coil name true w).1; cbn [snd]; [|exact Hset].
  apply (emits_only_trans _ _ _ _ Hset).
  eapply emits_only_trans; [by apply emits_only_sleep|].
  apply write_coil_actuation.
Qed.

Lemma pulse_loop_actuation n name d gap w :
  emits_only is_actuation w
    (for_range n (_ <- pulse_coil name (Some d) ;; sleep gap) w).2.
Proof.
  apply (for_range_emits_only is_actuation (fun _ => True)); [|done].
  intros w0 _. split; [|done]. rewrite pulse_then_sleep_run.
  eapply emits_only_trans; [apply pulse_coil_actuation|].
  by apply emits_only_sleep.
Qed.

Lemma pulse_coil_disconnected name duration w :
  connected (self w) = false -> pulse_coil name duration w = (false, w).
Proof.
  intros Hc. rewrite pulse_coil_run.
  by rewrite (write_coil_disconnected name true w Hc).
Qed.

Lemma pulse_loop_disconnected n name d gap w :
  connected (self w) = false ->
  steps_to w (replicate n (Sleep gap))
    (for_range n (_ <- pulse_coil name (Some d) ;; sleep gap) w).2.
Proof.
  revert w. induction n as [|n IH]; intros w Hc.
  - apply steps_to_refl.
  - rewrite for_range_S, pulse_then_sleep_run.
    rewrite (pulse_coil_disconnected name (Some d) w Hc). cbn [snd].
    pose proof (sleep_steps gap w) as Hs.
    change (replicate (Datatypes.S n) (Sleep gap))
      with ([Sleep gap] ++ replicate n (Sleep gap)).
    apply (steps_to_trans _ _ _ _ _ Hs). apply IH.
    by rewrite (steps_to_connected _ _ _ Hs).
Qed.

(** ** Alerts under the thresholds of [__init__] *)

(** X21: under the thresholds of [__init__] a reading that is missing from
    the register map never raises its alert: each alert in the list comes
    with a reading that is present and out of range.  The list has no
    duplicate and at most four entries. *)
Theorem missing_reading_never_alerts (regs : gmap string Z) :
  let found := evaluate_alerts init_thresholds regs in
  ("Pressure Alert" ∈ found ->
   exists v, regs !! "pressure_value" = Some v /\ (v < 20 \/ 80 < v)) /\
  ("Flow Alert" ∈ found ->
   exists v, regs !! "flow_value" = Some v /\ v < 10) /\
  ("Turbidity Alert" ∈ found ->
   exists v, regs !! "turbidity_value" = Some v /\ 15 < v) /\
  ("Low Level Alert" ∈ found ->
   exists v, regs !! "water_level" = Some v /\ v < 20) /\
  NoDup found /\ (length found <= 4)%nat.
Proof.
  cbv zeta.
  destruct (evaluate_alerts_members init_thresholds regs)
    as (Hsub & Hp & Hf & Ht & Hl).
  cbn [pt_low pt_high ft_low turb_high level_low init_thresholds] in *.
  split; [|split; [|split; [|split; [|split]]]].
  - intros Hin. apply Hp in Hin.
    destruct (regs !! "pressure_value") as [v|]; cbn in Hin; [|lia].
    by exists v.
  - intros Hin. apply Hf in Hin.
    destruct (regs !! "flow_value") as [v|]; cbn in Hin; [|lia].
    by exists v.
  - intros Hin. apply Ht in Hin.
    destruct (regs !! "turbidity_value") as [v|]; cbn in Hin; [|lia].
    by exists v.
  - intros Hin. apply Hl in Hin.
    destruct (regs !! "water_level") as [v|]; cbn in Hin; [|lia].
    by exists v.
  - apply (sublist_NoDup _ alert_order); [|exact Hsub].
    apply (bool_decide_unpack _). by vm_compute.
  - apply sublist_length in Hsub. exact Hsub.
Qed.

(** ** [connect] and [disconnect] *)

(** The test read of [connect]: one exchange, and [True] whatever it
    gives. *)
Lemma connect_test_run w :
  (result <- exchange (ReadCoils 0 1) (client_read_coils 0 1) ;;
   match result with
   | Reply _ => ret true
   | ErrorReply => ret true
   | Raised => ret true
   end) w
  = (true, (exchange (ReadCoils 0 1) (client_read_coils 0 1) w).2).
Proof.
  unfold bind.
  by destruct (exchange (ReadCoils 0 1) (client_read_coils 0 1) w)
    as [[bits| |] w'].
Qed.

(** X4: under pymodbus 3 and later [connect] cannot fail.  It sets the
    [connected] flag without asking the client to connect, performs one
    test read of coil 0, and returns [True] whether that read is answered,
    answered with an error, or raises. *)
Theorem connect_pymodbus3_always_true (PYMODBUS_VERSION : Z) w :
  PYMODBUS_VERSION >= 3 ->
  let r := connect PYMODBUS_VERSION w in
  r.1 = true /\
  connected (self r.2) = true /\
  wire r.2 = wire w ++ [ReadCoils 0 1] /\
  client (self r.2) = (client_read_coils 0 1 (client (self w))).2 /\
  monitoring (self r.2) = monitoring (self w) /\
  thresholds (self r.2) = thresholds (self w).
Proof.
  intros Hv. cbv zeta. unfold connect.
  rewrite (bool_decide_eq_true_2 _ Hv). rewrite connect_test_run.
  cbn [fst snd].
  destruct (exchange_self (ReadCoils 0 1) (client_read_coils 0 1)
              (update_self (set_connected true) w).2) as [Hself Hwire].
  rewrite Hself, Hwire. by repeat split.
Qed.

(** What [connect] does to a controller that is not connected. *)
Lemma connect_effect (PYMODBUS_VERSION : Z) w :
  connected (self w) = false ->
  let r := connect PYMODBUS_VERSION w in
  r.1 = connected (self r.2) /\
  wire r.2 = wire w ++ (if r.1 then [ReadCoils 0 1] else []) /\
  (PYMODBUS_VERSION >= 3 -> r.1 = true) /\
  (PYMODBUS_VERSION < 3 ->
   r.1 = bool_decide ((client_connect (client (self w))).1 = Some true)) /\
  host (self r.2) = host (self w) /\ port (self r.2) = port (self w) /\
  monitoring (self r.2) = monitoring (self w) /\
  last_data (self r.2) = last_data (self w) /\
  thresholds (self r.2) = thresholds (self w) /\
  clock r.2 = clock w.
Proof.
  intros Hc. cbv zeta. unfold connect. case_bool_decide as Hv.
  - rewrite connect_test_run. cbn [fst snd].
    destruct (exchange_self (ReadCoils 0 1) (client_read_coils 0 1)
                (update_self (set_connected true) w).2) as [Hself Hwire].
    rewrite Hself, Hwire. unfold exchange.
    destruct (client_read_coils 0 1 _) as [r c'].
    cbn. repeat split; (done || lia).
  - destruct (client_connect (client (self w))) as [[[|]|] c'];
      cbn [fst snd].
    + rewrite connect_test_run. cbn [fst snd].
      destruct (exchange_self (ReadCoils 0 1) (client_read_coils 0 1)
                  (update_self (set_connected true)
                     (update_self (set_client c') w).2).2)
        as [Hself Hwire].
      rewrite Hself, Hwire. unfold exchange.
      destruct (client_read_coils 0 1 _) as [r c''].
      cbn. repeat split; (done || lia).
    + cbn. rewrite app_nil_r. repeat split; (done || lia).
    + cbn. rewrite app_nil_r, Hc. repeat split; (done || lia).
Qed.

(** X5: on a controller that is not yet connected, [connect] returns
    [True] exactly when it leaves the [connected] flag set, and the test
    read is the only exchange it ever performs: one when it returns [True],
    none when it returns [False].  Under pymodbus 2 it returns [True]
    exactly when the client's [connect()] returned [True]; a [connect()]
    that raises counts as a failure. *)
Theorem connect_result_is_flag (PYMODBUS_VERSION : Z) w :
  connected (self w) = false ->
  let r := connect PYMODBUS_VERSION w in
  r.1 = connected (self r.2) /\
  wire r.2 = wire w ++ (if r.1 then [ReadCoils 0 1] else []) /\
  (PYMODBUS_VERSION < 3 ->
   r.1 = bool_decide ((client_connect (client (self w))).1 = Some true)).
Proof.
  intros Hc.
  destruct (connect_effect PYMODBUS_VERSION w Hc)
    as (Hflag & Hwire & _ & Hv2 & _).
  cbv zeta. by repeat split.
Qed.

Lemma disconnect_connected (PYMODBUS_VERSION : Z) w :
  connected (self w) = true ->
  let w' := (disconnect PYMODBUS_VERSION w).2 in
  connected (self w') = false /\ monitoring (self w') = false /\
  wire w' = wire w /\ clock w' = clock w /\
  last_data (self w') = last_data (self w) /\
  thresholds (self w') = thresholds (self w).
Proof.
  intros Hc. cbv zeta. unfold disconnect. rewrite Hc.
  unfold bind, stop_monitoring.
  destruct (monitoring (self w)) eqn:Hm; case_bool_decide;
    cbn [update_self ret self wire clock fst snd connected monitoring
         last_data thresholds set_connected set_monitoring set_client];
    by repeat split.
Qed.

Lemma disconnect_disconnected (PYMODBUS_VERSION : Z) w :
  connected (self w) = false -> disconnect PYMODBUS_VERSION w = (tt, w).
Proof. intros Hc. unfold disconnect. by rewrite Hc. Qed.

Lemma disconnect_effect (PYMODBUS_VERSION : Z) w :
  let w' := (disconnect PYMODBUS_VERSION w).2 in
  connected (self w') = false /\
  (connected (self w) = true -> monitoring (self w') = false) /\
  wire w' = wire w /\ clock w' = clock w /\
  last_data (self w') = last_data (self w) /\
  thresholds (self w') = thresholds (self w).
Proof.
  cbv zeta. destruct (connected (self w)) eqn:Hc.
  - destruct (disconnect_connected PYMODBUS_VERSION w Hc)
      as (? & ? & ? & ? & ? & ?).
    by repeat split.
  - rewrite (disconnect_disconnected PYMODBUS_VERSION w Hc). cbn [snd].
    by repeat split.
Qed.

(** X6: [disconnect] performs no exchange.  It leaves the [connected] flag
    cleared, and the [monitoring] flag too if the controller was connected;
    the wire, the clock, [last_data] and the thresholds stay as they were.
    Calling it again changes nothing, and afterwards a write returns
    [False] and a snapshot reads nothing. *)
Theorem disconnect_clears_flags (PYMODBUS_VERSION : Z) w :
  let w' := (disconnect PYMODBUS_VERSION w).2 in
  connected (self w') = false /\
  (connected (self w) = true -> monitoring (self w') = false) /\
  wire w' = wire w /\ clock w' = clock w /\
  last_data (self w') = last_data (self w) /\
  thresholds (self w') = thresholds (self w) /\
  disconnect PYMODBUS_VERSION w' = (tt, w') /\
  (forall name value, write_coil name value w' = (false, w')) /\
  wire (get_system_data w').2 = wire w.
Proof.
  cbv zeta.
  destruct (disconnect_effect PYMODBUS_VERSION w)
    as (Hc' & Hm' & Hw' & Hk' & Hl' & Ht').
  split; [done|]. split; [done|]. split; [done|]. split; [done|].
  split; [done|]. split; [done|].
  split; [by apply disconnect_disconnected|].
  split; [intros name value; by apply write_coil_disconnected|].
  destruct (get_system_data_effect (disconnect PYMODBUS_VERSION w).2)
    as (_ & _ & _ & _ & _ & Hwire).
  rewrite Hwire, Hc', app_nil_r. exact Hw'.
Qed.

(** ** Actuation on a disconnected controller *)

Lemma replicate_sleeps n gap :
  Forall (fun e => is_sleep e = true) (replicate n (Sleep gap)).
Proof. apply Forall_replicate. reflexivity. Qed.

Lemma pulse_loop_sleeps n name d gap w :
  connected (self w) = false ->
  emits_only is_sleep w
    (for_range n (_ <- pulse_coil name (Some d) ;; sleep gap) w).2.
Proof.
  intros Hc. exists (replicate n (Sleep gap)).
  split; [by apply pulse_loop_disconnected | apply replicate_sleeps].
Qed.

Lemma run_scenario_try_disconnected scenario w :
  connected (self w) = false -> scenario ∈ scenario_names ->
  (run_scenario_try scenario w).1 = true /\
  emits_only is_sleep w (run_scenario_try scenario w).2.
Proof.
  intros Hc. unfold scenario_names. rewrite !elem_of_cons, elem_of_nil.
  intros [->|[->|[->|[->|[]]]]]; unfold run_scenario_try;
    cbn [String.eqb Ascii.eqb Bool.eqb]; rewrite !bind_run;
    cbn [fst snd ret]; (split; [done|]).
  - rewrite (write_coil_disconnected "emergency_button" false w Hc).
    cbn [snd].
    pose proof (emits_only_sleep is_sleep 500 w eq_refl) as Hs.
    rewrite pulse_coil_disconnected; [exact Hs|].
    by rewrite (emits_only_connected _ _ _ Hs).
  - by apply pulse_loop_sleeps.
  - by apply pulse_loop_sleeps.
  - pose proof (pulse_loop_sleeps 8 "pt_dec_sim" 100 50 w Hc) as H1.
    apply (emits_only_trans _ _ _ _ H1).
    assert (Hc1 := emits_only_connected _ _ _ H1). rewrite Hc in Hc1.
    pose proof (pulse_loop_sleeps 6 "ft_dec_sim" 100 50 _ Hc1) as H2.
    apply (emits_only_trans _ _ _ _ H2).
    assert (Hc2 := emits_only_connected _ _ _ H2). rewrite Hc1 in Hc2.
    by apply pulse_loop_sleeps.
Qed.

Lemma process_of_world_of ctl p :
  plc_controller p = Some ctl -> process_of (world_of ctl p) = p.
Proof. destruct p. cbn. by intros ->. Qed.

Lemma run_scenario_process scenario w :
  run_scenario scenario (process_of w)
  = ((run_scenario_try scenario w).1,
     process_of (run_scenario_try scenario w).2).
Proof. destruct w. unfold process_of. apply run_scenario_some. Qed.

(** X7: on a controller whose [connected] flag is false nothing reaches the
    PLC, yet the sequences still run and still report success.
    [pulse_coil] returns [False] and does nothing; [adjust_parameter] on a
    known parameter returns [True] after sleeping 100 ms once per step; a
    known scenario returns [True] after doing nothing but sleep. *)
Theorem disconnected_actuation_silent w :
  connected (self w) = false ->
  (forall name duration, pulse_coil name duration w = (false, w)) /\
  (forall param d n, param ∈ parameter_names ->
     let r := adjust_parameter param d n w in
     r.1 = true /\
     wire r.2 = wire w ++ replicate (Z.to_nat (default 1 n)) (Sleep 100)) /\
  (forall name, name ∈ scenario_names ->
     let r := run_scenario name (process_of w) in
     r.1 = true /\
     exists evs, p_wire r.2 = wire w ++ evs /\
                 Forall (fun e => is_sleep e = true) evs).
Proof.
  intros Hc. split; [|split].
  - intros name duration. by apply pulse_coil_disconnected.
  - intros param d n Hp. cbv zeta.
    destruct (param_map_known param Hp) as (inc_coil & dec_coil & Hmap).
    rewrite (adjust_parameter_known _ _ _ d n w Hmap). cbn [fst snd].
    split; [done|].
    by destruct (pulse_loop_disconnected (Z.to_nat (default 1 n))
                   (if String.eqb d "up" then inc_coil else dec_coil)
                   100 100 w Hc) as [_ Hwire].
  - intros name Hname. cbv zeta. rewrite run_scenario_process.
    cbn [fst snd].
    destruct (run_scenario_try_disconnected name w Hc Hname)
      as (Hres & evs & [_ Hwire] & Hsleeps).
    split; [done|]. exists evs. by split.
Qed.

(** ** The other scenarios *)

Lemma coil_addresses :
  coil_map !! "start_button" = Some 3 /\
  coil_map !! "emergency_button" = Some 4 /\
  coil_map !! "pt_dec_sim" = Some 17 /\
  coil_map !! "ft_dec_sim" = Some 19 /\
  coil_map !! "turb_inc_sim" = Some 20.
Proof. by vm_compute. Qed.

(** X8: with a controller in place, scenario "high_turbidity" puts on the
    wire a train of 8 pulses of [turb_inc_sim] with pauses of 100 ms;
    "multiple_faults" a train of 8 pulses of [pt_dec_sim], then 6 of
    [ft_dec_sim], then 10 of [turb_inc_sim], all with pauses of 50 ms;
    "normal_startup" the write that clears [emergency_button], a pause of
    500 ms and one pulse of [start_button].  Each returns [True], and while
    connected every write of the sequence reaches the client. *)
Theorem other_scenarios_trains (ctl : PLCWebController C) tr t :
  let run name :=
    run_scenario name
      {| plc_controller := Some ctl; p_wire := tr; p_clock := t |} in
  let sent os := connected ctl = true ->
                 Forall (fun o => o <> NotSent) os in
  ((run "high_turbidity").1 = true /\
   exists os, length os = 8%nat /\ sent os /\
     p_wire (run "high_turbidity").2 = tr ++ pulse_train 20 100 100 os) /\
  ((run "multiple_faults").1 = true /\
   exists os1 os2 os3,
     length os1 = 8%nat /\ length os2 = 6%nat /\ length os3 = 10%nat /\
     sent os1 /\ sent os2 /\ sent os3 /\
     p_wire (run "multiple_faults").2
       = tr ++ pulse_train 17 100 50 os1 ++ pulse_train 19 100 50 os2
            ++ pulse_train 20 100 50 os3) /\
  ((run "normal_startup").1 = true /\
   exists clear o,
     (clear = [] \/ clear = [WriteCoil 4 false]) /\
     (connected ctl = true -> clear = [WriteCoil 4 false] /\ o <> NotSent) /\
     p_wire (run "normal_startup").2
       = tr ++ clear ++ Sleep 500 :: pulse_events 3 100 o).
Proof.
  cbv zeta.
  destruct coil_addresses as (Hstart & Hemerg & Hpt & Hft & Hturb).
  set (w := {| self := ctl; wire := tr; clock := t |}).
  rewrite !run_scenario_some. fold w. cbn [fst snd p_wire].
  unfold run_scenario_try. cbn [String.eqb Ascii.eqb Bool.eqb].
  rewrite !bind_run. cbn [fst snd ret].
  split; [|split].
  - split; [done|].
    destruct (pulse_loop_train 8 "turb_inc_sim" 20 100 100 Hturb w)
      as (os & Hlen & [_ Hwire] & Hsent & _).
    exists os. by repeat split.
  - split; [done|].
    destruct (pulse_loop_train 8 "pt_dec_sim" 17 100 50 Hpt w)
      as (os1 & Hlen1 & Hs1 & Hsent1 & _).
    set (w1 := (for_range 8 _ w).2) in *.
    destruct (pulse_loop_train 6 "ft_dec_sim" 19 100 50 Hft w1)
      as (os2 & Hlen2 & Hs2 & Hsent2 & _).
    set (w2 := (for_range 6 _ w1).2) in *.
    destruct (pulse_loop_train 10 "turb_inc_sim" 20 100 50 Hturb w2)
      as (os3 & Hlen3 & Hs3 & Hsent3 & _).
    exists os1, os2, os3.
    assert (Hc1 := steps_to_connected _ _ _ Hs1).
    assert (Hc2 := steps_to_connected _ _ _ Hs2).
    destruct (steps_to_trans _ _ _ _ _ Hs1
                (steps_to_trans _ _ _ _ _ Hs2 Hs3)) as [_ Hwire].
    split; [done|]. split; [done|]. split; [done|].
    split; [done|].
    split; [intros Hc; apply Hsent2; by rewrite Hc1|].
    split; [intros Hc; apply Hsent3; by rewrite Hc2, Hc1|].
    exact Hwire.
  - split; [done|].
    set (w1 := (write_coil "emergency_button" false w).2).
    assert (Hclear : exists clear,
      steps_to w clear w1 /\
      (clear = [] \/ clear = [WriteCoil 4 false]) /\
      (connected ctl = true -> clear = [WriteCoil 4 false])).
    { unfold w1.
      destruct (write_coil_cases "emergency_button" false w)
        as [Hw | (a & Ha & Hc & Hs)].
      - exists []. rewrite Hw. split; [apply steps_to_refl|].
        split; [by left|]. intros Hc.
        rewrite (write_coil_connected "emergency_button" 4 false w Hc Hemerg)
          in Hw.
        apply (f_equal (fun r => wire r.2)) in Hw. cbn [snd] in Hw.
        destruct (exchange_self (WriteCoil 4 false)
                    (client_write_coil 4 false) w) as [_ Hwire].
        rewrite Hwire in Hw. cbn [wire w] in Hw.
        apply (f_equal length) in Hw. rewrite length_app in Hw.
        cbn [length] in Hw. lia.
      - rewrite Hemerg in Ha. injection Ha as <-.
        exists [WriteCoil 4 false]. split; [exact Hs|].
        split; [by right | done]. }
    destruct Hclear as (clear & Hs1 & Hshape & Hsent1).
    pose proof (sleep_steps 500 w1) as Hs2.
    set (w2 := (sleep 500 w1).2) in *.
    destruct (pulse_coil_outcome "start_button" 3 None w2 Hstart)
      as (o & Hs3 & _ & Hsent3 & _).
    cbn [default from_option] in Hs3.
    exists clear, o. split; [done|]. split.
    + intros Hc. split; [by apply Hsent1|]. apply Hsent3.
      rewrite (steps_to_connected _ _ _ Hs2).
      by rewrite (steps_to_connected _ _ _ Hs1).
    + by destruct (steps_to_trans _ _ _ _ _ Hs1
                     (steps_to_trans _ _ _ _ _ Hs2 Hs3)) as [_ Hwire].
Qed.

(** ** The web layer *)

Lemma on_controller_run {A} ctl (m : M A) p :
  on_controller ctl m p
  = ((m (world_of ctl p)).1, process_of (m (world_of ctl p)).2).
Proof. unfold on_controller. by destruct (m (world_of ctl p)). Qed.

Lemma run_scenario_on_controller name ctl p :
  plc_controller p = Some ctl ->
  run_scenario name p
  = ((run_scenario_try name (world_of ctl p)).1,
     process_of (run_scenario_try name (world_of ctl p)).2).
Proof.
  intros Hp. rewrite <- (process_of_world_of ctl p Hp) at 1.
  apply run_scenario_process.
Qed.

Lemma py_eq_unknown known value literal :
  unknown_in known value -> literal ∈ known -> py_eq value literal = false.
Proof.
  intros Hu Hl. destruct value as [s|]; [|done]. cbn.
  apply String.eqb_neq. intros ->. by apply (Hu literal).
Qed.

Lemma adjust_parameter_actuation param d n w :
  emits_only is_actuation w (adjust_parameter param d n w).2.
Proof.
  destruct (param_map !! param) as [[inc_coil dec_coil]|] eqn:Hp.
  - rewrite (adjust_parameter_known _ _ _ d n w Hp). cbn [snd].
    apply pulse_loop_actuation.
  - unfold adjust_parameter. rewrite Hp. apply emits_only_refl.
Qed.

Lemma adjust_request_actuation param d n w :
  emits_only is_actuation w (adjust_request param d n w).2.
Proof.
  destruct param as [name|]; [apply adjust_parameter_actuation|].
  apply emits_only_refl.
Qed.

Lemma adjust_request_unknown param d n w :
  unknown_in parameter_names param ->
  adjust_request param d n w = (false, w).
Proof.
  intros Hu. destruct param as [name|]; [|done]. cbn.
  unfold adjust_parameter.
  by rewrite (param_map_unknown name (Hu name eq_refl)).
Qed.

Lemma run_scenario_try_actuation name w :
  emits_only is_actuation w (run_scenario_try name w).2.
Proof.
  unfold run_scenario_try.
  destruct (String.eqb name "normal_startup").
  { rewrite !bind_run. cbn [fst snd ret].
    eapply emits_only_trans; [apply write_coil_actuation|].
    eapply emits_only_trans; [by apply emits_only_sleep|].
    apply pulse_coil_actuation. }
  destruct (String.eqb name "low_pressure").
  { rewrite !bind_run. cbn [fst snd ret]. apply pulse_loop_actuation. }
  destruct (String.eqb name "high_turbidity").
  { rewrite !bind_run. cbn [fst snd ret]. apply pulse_loop_actuation. }
  destruct (String.eqb name "multiple_faults").
  { rewrite !bind_run. cbn [fst snd ret].
    eapply emits_only_trans; [apply pulse_loop_actuation|].
    eapply emits_only_trans; [apply pulse_loop_actuation|].
    apply pulse_loop_actuation. }
  apply emits_only_refl.
Qed.

(** X9: the three entry points of the web layer that touch the PLC refuse
    to do so without a connected controller.  When the global controller is
    [None] or its [connected] flag is false, [/api/control] answers 400
    "PLC not connected", [/api/system_data] answers 400, [plc_command]
    emits one ['error'], and the process is left exactly as it was,
    whatever the request. *)
Theorem web_layer_needs_connection p :
  (forall ctl, plc_controller p = Some ctl -> connected ctl = false) ->
  (forall data, control_system data p = (not_connected_reply, p)) /\
  get_system_data_route p = (SnapshotError 400 "PLC not connected", p) /\
  (forall data,
     handle_plc_command data p = ([ErrorMessage "PLC not connected"], p)).
Proof.
  intros Hp. unfold control_system, get_system_data_route,
    handle_plc_command.
  destruct (plc_controller p) as [ctl|]; [|done].
  by rewrite (Hp ctl eq_refl).
Qed.

Lemma emits_only_process kind ctl (m : M bool) p :
  plc_controller p = Some ctl ->
  emits_only kind (world_of ctl p) (m (world_of ctl p)).2 ->
  (exists evs, p_wire (on_controller ctl m p).2 = p_wire p ++ evs /\
               Forall (fun e => kind e = true) evs) /\
  exists c', plc_controller (on_controller ctl m p).2
             = Some (set_client c' ctl).
Proof.
  intros Hp (evs & [Hself Hwire] & Hkind). rewrite on_controller_run.
  cbn [snd process_of p_wire plc_controller]. split.
  - by exists evs.
  - eexists. by rewrite Hself.
Qed.

Lemma unchanged_process kind ctl p :
  plc_controller p = Some ctl ->
  (exists evs, p_wire p = p_wire p ++ evs /\
               Forall (fun e => kind e = true) evs) /\
  exists c', plc_controller p = Some (set_client c' ctl).
Proof.
  intros Hp. split.
  - exists []. by rewrite app_nil_r.
  - exists (client ctl). by rewrite set_client_id.
Qed.

(** X10: no request to [/api/control] ever makes the backend read from the
    PLC: whatever the action and its fields, the wire grows by writes and
    pauses only.  Nor does a request change the controller: its flags, its
    thresholds and its last snapshot are as before, only the client object
    has moved on. *)
Theorem control_never_reads data p :
  let r := control_system data p in
  (exists evs,
     p_wire r.2 = p_wire p ++ evs /\
     Forall (fun e => is_actuation e = true) evs) /\
  (forall ctl, plc_controller p = Some ctl ->
     exists c', plc_controller r.2 = Some (set_client c' ctl)).
Proof.
  cbv zeta. unfold control_system.
  destruct (plc_controller p) as [ctl|] eqn:Hp.
  2: { split; [|done]. exists []. by rewrite app_nil_r. }
  assert (Hgoal : forall q : Process C,
    ((exists evs, p_wire q = p_wire p ++ evs /\
                  Forall (fun e => is_actuation e = true) evs) /\
     exists c', plc_controller q = Some (set_client c' ctl)) ->
    (exists evs, p_wire q = p_wire p ++ evs /\
                 Forall (fun e => is_actuation e = true) evs) /\
    forall ctl0, Some ctl = Some ctl0 ->
      exists c', plc_controller q = Some (set_client c' ctl0)).
  { intros q [Hw Hctl]. split; [done|]. by intros ctl0 [= <-]. }
  pose proof (unchanged_process is_actuation ctl p Hp) as Hnone.
  destruct (connected ctl); cbn [negb]; [|by apply Hgoal].
  destruct (py_eq (action data) "start").
  { cbn [fst snd]. apply Hgoal, emits_only_process; [done|].
    apply pulse_coil_actuation. }
  destruct (py_eq (action data) "emergency_stop").
  { cbn [fst snd]. apply Hgoal, emits_only_process; [done|].
    apply write_coil_actuation. }
  destruct (py_eq (action data) "reset").
  { cbn [fst snd]. apply Hgoal, emits_only_process; [done|].
    apply write_coil_actuation. }
  destruct (py_eq (action data) "adjust_parameter").
  { cbn [fst snd]. apply Hgoal, emits_only_process; [done|].
    apply adjust_request_actuation. }
  destruct (py_eq (action data) "scenario"); [|by apply Hgoal].
  cbn [fst snd]. destruct (scenario data) as [name|]; [|by apply Hgoal].
  apply Hgoal.
  pose proof (emits_only_process is_actuation ctl
                (run_scenario_try name) p Hp
                (run_scenario_try_actuation name (world_of ctl p)))
    as Hrun.
  rewrite on_controller_run in Hrun.
  by rewrite (run_scenario_on_controller name ctl p Hp).
Qed.

(** X11: on a connected controller the actions "emergency_stop" and "reset"
    of [/api/control] perform exactly one exchange, the write of [True],
    respectively [False], to coil 4, and the [success] field of the answer
    says whether the client acknowledged that write. *)
Theorem control_emergency_button data p ctl (value : bool) :
  plc_controller p = Some ctl -> connected ctl = true ->
  action data = Some (if value then "emergency_stop" else "reset") ->
  let r := control_system data p in
  let answer := client_write_coil 4 value (client ctl) in
  r.1 = json_success (is_reply answer.1) /\
  p_wire r.2 = p_wire p ++ [WriteCoil 4 value] /\
  plc_controller r.2 = Some (set_client answer.2 ctl).
Proof.
  intros Hp Hc Hact. cbv zeta. unfold control_system.
  rewrite Hp, Hc, Hact. cbn [negb].
  destruct coil_addresses as (_ & Hemerg & _).
  assert (Hwrite : forall v,
    on_controller ctl (write_coil "emergency_button" v) p
    = (is_reply (client_write_coil 4 v (client ctl)).1,
       process_of (exchange (WriteCoil 4 v) (client_write_coil 4 v)
                     (world_of ctl p)).2)).
  { intros v. rewrite on_controller_run.
    by rewrite (write_coil_connected "emergency_button" 4 v
                  (world_of ctl p) Hc Hemerg). }
  destruct (exchange_self (WriteCoil 4 value) (client_write_coil 4 value)
              (world_of ctl p)) as [Hself Hwire].
  destruct value; cbn [py_eq String.eqb Ascii.eqb Bool.eqb];
    rewrite Hwrite; cbn [fst snd process_of p_wire plc_controller];
    rewrite Hself, Hwire; by repeat split.
Qed.

(** X12: on a connected controller [/api/control] rejects without any I/O
    an action it does not know (answer "Unknown action"), an
    "adjust_parameter" whose parameter is missing or unknown, and a
    "scenario" whose name is missing or unknown (answer [success: False]);
    the process is left exactly as it was. *)
Theorem control_rejections data p ctl :
  plc_controller p = Some ctl -> connected ctl = true ->
  (unknown_in control_actions (action data) ->
   control_system data p
   = ({| status := 200; success := false;
         message := Some "Unknown action" |}, p)) /\
  (action data = Some "adjust_parameter" ->
   unknown_in parameter_names (parameter data) ->
   control_system data p = (json_success false, p)) /\
  (action data = Some "scenario" ->
   unknown_in scenario_names (scenario data) ->
   control_system data p = (json_success false, p)).
Proof.
  intros Hp Hc. unfold control_system. rewrite Hp, Hc. cbn [negb].
  split; [|split].
  - intros Hu.
    rewrite !(py_eq_unknown control_actions (action data)); try done;
      unfold control_actions; rewrite !elem_of_cons; auto 8.
  - intros -> Hu. cbn [py_eq String.eqb Ascii.eqb Bool.eqb].
    rewrite on_controller_run, adjust_request_unknown by done.
    cbn [fst snd]. by rewrite (process_of_world_of ctl p Hp).
  - intros -> Hu. cbn [py_eq String.eqb Ascii.eqb Bool.eqb].
    destruct (scenario data) as [name|]; [|done].
    rewrite (run_scenario_on_controller name ctl p Hp).
    rewrite (run_scenario_try_unknown name _ (Hu name eq_refl)).
    cbn [fst snd]. by rewrite (process_of_world_of ctl p Hp).
Qed.


(** X14: on a connected controller [/api/system_data] answers with a
    snapshot whose [connected] field is true, after exactly the two reads;
    a web client that connects next is sent that very snapshot by the
    handler of ['connect'].  Before any snapshot was taken, and without a
    controller, that handler sends nothing. *)
Theorem snapshot_served_and_replayed p :
  (forall ctl, plc_controller p = Some ctl -> connected ctl = true ->
     exists d,
       (get_system_data_route p).1 = SnapshotReply d /\
       sd_connected d = true /\
       p_wire (get_system_data_route p).2
         = p_wire p ++ [ReadCoils 0 24; ReadHoldingRegisters 0 4] /\
       handle_connect (get_system_data_route p).2 = [PlcData d]) /\
  ((forall ctl, plc_controller p = Some ctl -> last_data ctl = None) ->
   handle_connect p = []).
Proof.
  split.
  - intros ctl Hp Hc. unfold get_system_data_route. rewrite Hp, Hc.
    rewrite on_controller_run. cbn [fst snd].
    exists (get_system_data (world_of ctl p)).1.
    destruct (get_system_data_effect (world_of ctl p))
      as (Hlast & _ & _ & _ & Hconn & Hwire).
    cbn [world_of self wire] in Hconn, Hwire. rewrite Hc in Hconn, Hwire.
    split; [done|]. split; [done|]. split; [done|].
    unfold handle_connect, process_of. cbn [plc_controller].
    by rewrite Hlast.
  - intros Hnone. unfold handle_connect.
    destruct (plc_controller p) as [ctl|]; [|done].
    by rewrite (Hnone ctl eq_refl).
Qed.

(** ** The monitoring loop *)

Lemma monitor_loop_idle n (m : Monitor) :
  monitoring (self (m_world m)) && connected (self (m_world m)) = false ->
  _monitor_loop n m = (Exited, m).
Proof. intros Hidle. destruct n; cbn [_monitor_loop]; by rewrite Hidle. Qed.

Lemma monitor_loop_step n (m : Monitor) :
  monitoring (self (m_world m)) = true ->
  connected (self (m_world m)) = true ->
  _monitor_loop (Datatypes.S n) m = _monitor_loop n (monitor_cycle m).
Proof. intros Hm Hc. cbn [_monitor_loop]. by rewrite Hm, Hc. Qed.

(** One cycle on a connected controller. *)
Lemma monitor_cycle_effect (m : Monitor) :
  connected (self (m_world m)) = true ->
  exists pause d,
    (pause = 1000%N \/ pause = 2000%N) /\
    wire (m_world (monitor_cycle m))
      = wire (m_world m) ++ cycle_events pause /\
    m_published (monitor_cycle m) = m_published m ++ [("plc_data", d)] /\
    sd_connected d = true /\
    last_data (self (m_world (monitor_cycle m))) = Some d /\
    connected (self (m_world (monitor_cycle m))) = true /\
    monitoring (self (m_world (monitor_cycle m)))
      = monitoring (self (m_world m)).
Proof.
  intros Hc. unfold monitor_cycle.
  destruct (get_system_data_effect (m_world m))
    as (Hlast & Hconn & Hmon & _ & Hsd & Hwire).
  rewrite Hc in Hconn, Hsd, Hwire.
  destruct (get_system_data (m_world m)) as [d w1]. cbn [fst snd] in *.
  destruct (socketio_emit "plc_data" d (m_sink m)) as [[|] s1].
  - exists 1000%N, d. cbn. rewrite Hwire, <- app_assoc.
    by repeat split; [left|..].
  - exists 2000%N, d. cbn. rewrite Hwire, <- app_assoc.
    by repeat split; [right|..].
Qed.

(** Any number of cycles on a connected, monitoring controller. *)
Lemma monitor_loop_effect n :
  forall m : Monitor,
  monitoring (self (m_world m)) = true ->
  connected (self (m_world m)) = true ->
  exists pauses news,
    length pauses = n /\ length news = n /\
    Forall (fun pause => pause = 1000%N \/ pause = 2000%N) pauses /\
    Forall (fun x => x.1 = "plc_data" /\ sd_connected x.2 = true) news /\
    (_monitor_loop n m).1 = Running /\
    wire (m_world (_monitor_loop n m).2)
      = wire (m_world m) ++ cycles_events pauses /\
    m_published (_monitor_loop n m).2 = m_published m ++ news /\
    last_data (self (m_world (_monitor_loop n m).2))
      = match last news with
        | Some x => Some x.2
        | None => last_data (self (m_world m))
        end /\
    monitoring (self (m_world (_monitor_loop n m).2)) = true /\
    connected (self (m_world (_monitor_loop n m).2)) = true.
Proof.
  induction n as [|n IH]; intros m Hm Hc.
  - exists [], []. cbn [_monitor_loop]. rewrite Hm, Hc. cbn.
    rewrite !app_nil_r. by repeat split.
  - rewrite (monitor_loop_step n m Hm Hc).
    destruct (monitor_cycle_effect m Hc)
      as (pause & d & Hpause & Hwire & Hpub & Hsd & Hlast & Hc1 & Hm1).
    rewrite Hm in Hm1.
    destruct (IH (monitor_cycle m) Hm1 Hc1)
      as (pauses & news & Hlp & Hln & Hps & Hns & Hrun & Hw & Hp & Hl
          & Hm2 & Hc2).
    exists (pause :: pauses), (("plc_data", d) :: news).
    split; [by rewrite <- Hlp|]. split; [by rewrite <- Hln|].
    split; [by constructor|]. split; [by constructor|].
    split; [done|].
    split; [rewrite Hw, Hwire; cbn [cycles_events];
            by rewrite <- !app_assoc|].
    split; [rewrite Hp, Hpub; by rewrite <- app_assoc|].
    split; [|done].
    rewrite Hl, Hlast. rewrite last_cons. by destruct (last news).
Qed.

(** X15: the monitoring loop stops as soon as it finds the [monitoring] or
    the [connected] flag cleared: it then reads nothing and publishes
    nothing.  In particular it stops once the controller was disconnected,
    whatever the flags were before. *)
Theorem monitor_loop_stops (PYMODBUS_VERSION : Z) n (m : Monitor) :
  (monitoring (self (m_world m)) = false \/
   connected (self (m_world m)) = false ->
   _monitor_loop n m = (Exited, m)) /\
  (let m' := {| m_world := (disconnect PYMODBUS_VERSION (m_world m)).2;
                m_sink := m_sink m; m_published := m_published m |} in
   _monitor_loop n m' = (Exited, m')).
Proof.
  split.
  - intros Hflag. apply monitor_loop_idle.
    destruct Hflag as [-> | ->]; [done | apply andb_false_r].
  - cbv zeta. apply monitor_loop_idle. cbn [m_world].
    destruct (disconnect_effect PYMODBUS_VERSION (m_world m)) as (-> & _).
    apply andb_false_r.
Qed.


(** X17: while both flags are set, every cycle hands exactly one snapshot
    to the broadcast, on the channel ['plc_data'] and with its [connected]
    field true, and the snapshot handed over last is the controller's
    [last_data]. *)
Theorem monitor_loop_publishes n (m : Monitor) :
  monitoring (self (m_world m)) = true ->
  connected (self (m_world m)) = true ->
  let m' := (_monitor_loop n m).2 in
  exists news,
    m_published m' = m_published m ++ news /\
    length news = n /\
    Forall (fun x => x.1 = "plc_data" /\ sd_connected x.2 = true) news /\
    last_data (self (m_world m'))
      = match last news with
        | Some x => Some x.2
        | None => last_data (self (m_world m))
        end.
Proof.
  intros Hm Hc. cbv zeta.
  destruct (monitor_loop_effect n m Hm Hc)
    as (pauses & news & _ & Hln & _ & Hns & _ & _ & Hp & Hl & _).
  by exists news.
Qed.

(** ** Connecting and disconnecting through the web layer *)

Lemma on_old_disconnect (PYMODBUS_VERSION : Z) p :
  let p0 := match plc_controller p with
            | Some old =>
                (on_controller old (disconnect PYMODBUS_VERSION) p).2
            | None => p
            end in
  p_wire p0 = p_wire p /\ p_clock p0 = p_clock p.
Proof.
  cbv zeta. destruct (plc_controller p) as [old|]; [|done].
  rewrite on_controller_run. cbn [snd process_of p_wire p_clock].
  by destruct (disconnect_effect PYMODBUS_VERSION (world_of old p))
    as (_ & _ & -> & -> & _).
Qed.

(** X18: [/api/connect] always installs a new controller, also when the
    connection fails: afterwards the global controller is one built for the
    requested host and port ("localhost" and 502 when absent), with the
    thresholds of [__init__] and no [last_data], whose [connected] and
    [monitoring] flags both equal the [success] field of the answer.  A
    successful connection costs exactly one test read, a failed one
    nothing; under pymodbus 3 and later the answer is always a success. *)
Theorem connect_plc_installs_controller (PYMODBUS_VERSION : Z) data p :
  let r := connect_plc PYMODBUS_VERSION data p in
  exists ctl,
    plc_controller r.2 = Some ctl /\
    host ctl = default "localhost" (cd_host data) /\
    port ctl = default 502 (cd_port data) /\
    thresholds ctl = init_thresholds /\
    last_data ctl = None /\
    connected ctl = success r.1 /\
    monitoring ctl = success r.1 /\
    status r.1 = 200 /\
    p_wire r.2 = p_wire p ++ (if success r.1 then [ReadCoils 0 1] else []) /\
    (PYMODBUS_VERSION >= 3 -> success r.1 = true).
Proof.
  cbv zeta. unfold connect_plc.
  destruct (on_old_disconnect PYMODBUS_VERSION p) as [Hw0 _].
  set (p0 := match plc_controller p with
             | Some old =>
                 (on_controller old (disconnect PYMODBUS_VERSION) p).2
             | None => p
             end) in *.
  set (h := default "localhost" (cd_host data)).
  set (pt := default 502 (cd_port data)).
  set (w0 := world_of (PLCWebController_init h pt (client_new h pt)) p0).
  destruct (connect_effect PYMODBUS_VERSION w0 eq_refl)
    as (Hflag & Hwire & Hv3 & _ & Hh & Hp & Hm & Hl & Ht & _).
  assert (Hw00 : wire w0 = p_wire p) by exact Hw0.
  rewrite Hw00 in Hwire.
  destruct (connect PYMODBUS_VERSION w0) as [[|] w1]; cbn [fst snd] in *.
  - unfold start_monitoring. rewrite Hm. cbn.
    exists (set_monitoring true (self w1)). cbn.
    rewrite Hh, Hp, Ht, Hl, Hwire. by repeat split.
  - exists (self w1). cbn.
    rewrite Hh, Hp, Ht, Hl, Hwire, Hm, app_nil_r.
    repeat split; try done; intros Hv; by specialize (Hv3 Hv).
Qed.

(** X19: [/api/disconnect] always answers with a success and performs no
    exchange.  Afterwards there is no global controller: a control request
    is answered 400 "PLC not connected", a scenario returns [False], a web
    client that connects is sent nothing, and none of these changes the
    process. *)
Theorem disconnect_plc_removes_controller (PYMODBUS_VERSION : Z) p :
  let r := disconnect_plc PYMODBUS_VERSION p in
  success r.1 = true /\
  plc_controller r.2 = None /\
  p_wire r.2 = p_wire p /\
  p_clock r.2 = p_clock p /\
  (forall data, control_system data r.2 = (not_connected_reply, r.2)) /\
  (forall name, run_scenario name r.2 = (false, r.2)) /\
  handle_connect r.2 = [].
Proof.
  cbv zeta. unfold disconnect_plc. cbn [fst snd success].
  assert (Hnone : forall q : Process C,
    plc_controller q = None ->
    (forall data, control_system data q = (not_connected_reply, q)) /\
    (forall name, run_scenario name q = (false, q)) /\
    handle_connect q = []).
  { intros q Hq. unfold control_system, run_scenario, handle_connect.
    by rewrite Hq. }
  destruct (plc_controller p) as [ctl|] eqn:Hp.
  - destruct (disconnect_effect PYMODBUS_VERSION (world_of ctl p))
      as (_ & _ & Hw & Hk & _).
    split; [done|]. split; [done|]. split; [exact Hw|]. split; [exact Hk|].
    by apply Hnone.
  - split; [done|]. split; [done|]. split; [done|]. split; [done|].
    by apply Hnone.
Qed.

End ServerProperties.

(** ** Runs of the rest of the backend on the simulated PLC *)

Lemma not_in_known (known : list string) (s : string) :
  bool_decide (s ∈ known) = false -> unknown_in known (Some s).
Proof.
  intros Hs s' [= <-]. by apply bool_decide_eq_false in Hs.
Qed.

Lemma reads_map_points_witness :
  let w := sim_world true [15; 25; 5; 75] [] in
  let w' := sim_world true [15; 25; 5; 75] [Refuse] in
  connected (self w) = true /\
  (client_read_coils 0 24 (client (self w))).1 = Reply (replicate 24 false) /\
  (client_read_holding_registers 0 4 (client (self w))).1
    = Reply [15; 25; 5; 75] /\
  coil_map !! "pt_dec_sim" = Some 17 /\
  register_map !! "water_level" = Some 3 /\
  (read_coils None w).1 !! "pt_dec_sim" = replicate 24 false !! Z.to_nat 17 /\
  (read_registers w).1 !! "water_level" = [15; 25; 5; 75] !! Z.to_nat 3 /\
  is_reply (client_read_coils 0 24 (client (self w'))).1 = false /\
  is_reply (client_read_holding_registers 0 4 (client (self w'))).1 = false /\
  (read_coils None w').1 = ∅ /\
  (read_registers w').1 = ∅.
Proof.
  cbv zeta.
  destruct (reads_map_points (sim_world true [15; 25; 5; 75] []) None
              eq_refl) as (Hcoils & _ & Hregs & _).
  destruct (reads_map_points (sim_world true [15; 25; 5; 75] [Refuse]) None
              eq_refl) as (_ & Hnocoils & _ & Hnoregs).
  assert (H1 : (client_read_coils 0 24
                  (client (self (sim_world true [15; 25; 5; 75] [])))).1
               = Reply (replicate 24 false)) by (vm_compute; reflexivity).
  assert (H2 : (client_read_holding_registers 0 4
                  (client (self (sim_world true [15; 25; 5; 75] [])))).1
               = Reply [15; 25; 5; 75]) by (vm_compute; reflexivity).
  assert (H3 : coil_map !! "pt_dec_sim" = Some 17)
    by (vm_compute; reflexivity).
  assert (H4 : register_map !! "water_level" = Some 3)
    by (vm_compute; reflexivity).
  assert (H5 : is_reply (client_read_coils 0 24
                 (client (self (sim_world true [15; 25; 5; 75]
                                  [Refuse])))).1 = false)
    by (vm_compute; reflexivity).
  assert (H6 : is_reply (client_read_holding_registers 0 4
                 (client (self (sim_world true [15; 25; 5; 75]
                                  [Refuse])))).1 = false)
    by (vm_compute; reflexivity).
  split; [reflexivity|]. split; [exact H1|]. split; [exact H2|].
  split; [exact H3|]. split; [exact H4|].
  split; [exact (Hcoils _ H1 _ _ H3)|].
  split; [exact (Hregs _ H2 _ _ H4)|].
  split; [exact H5|]. split; [exact H6|].
  split; [exact (Hnocoils H5) | exact (Hnoregs H6)].
Defined.

Lemma unknown_point_no_io_witness :
  let w := sim_world true [] [] in
  coil_map !! "valve" = None /\
  write_coil "valve" true w = (false, w) /\
  pulse_coil "valve" None w = (false, w).
Proof.
  cbv zeta.
  assert (Hname : coil_map !! "valve" = None) by (vm_compute; reflexivity).
  split; [exact Hname|].
  exact (unknown_point_no_io (sim_world true [] []) "valve" true None Hname).
Defined.

Lemma write_coil_reports_answer_witness :
  let w := sim_world true [] [Crash] in
  connected (self w) = true /\
  coil_map !! "pump" = Some 0 /\
  (write_coil "pump" true w).1
    = is_reply (client_write_coil 0 true (client (self w))).1 /\
  wire (write_coil "pump" true w).2 = wire w ++ [WriteCoil 0 true] /\
  self (write_coil "pump" true w).2
    = set_client (client_write_coil 0 true (client (self w))).2 (self w).
Proof.
  cbv zeta.
  assert (Hname : coil_map !! "pump" = Some 0) by (vm_compute; reflexivity).
  split; [reflexivity|]. split; [exact Hname|].
  exact (write_coil_reports_answer "pump" 0 true (sim_world true [] [Crash])
           eq_refl Hname).
Defined.

Lemma missing_reading_never_alerts_witness :
  let regs : gmap string Z := {[ "pressure_value" := 15 ]} in
  "Pressure Alert" ∈ evaluate_alerts init_thresholds regs /\
  exists v, regs !! "pressure_value" = Some v /\ (v < 20 \/ 80 < v).
Proof.
  cbv zeta.
  assert (Hin : "Pressure Alert"
                ∈ evaluate_alerts init_thresholds
                    ({[ "pressure_value" := 15 ]} : gmap string Z))
    by (apply (bool_decide_unpack _); vm_compute; exact I).
  split; [exact Hin|].
  destruct (missing_reading_never_alerts
              ({[ "pressure_value" := 15 ]} : gmap string Z))
    as (Hp & _).
  exact (Hp Hin).
Defined.

Lemma connect_pymodbus3_always_true_witness :
  let w := sim_world false [] [Crash] in
  let r := connect 3 w in
  3 >= 3 /\
  r.1 = true /\
  connected (self r.2) = true /\
  wire r.2 = wire w ++ [ReadCoils 0 1] /\
  client (self r.2) = (client_read_coils 0 1 (client (self w))).2 /\
  monitoring (self r.2) = monitoring (self w) /\
  thresholds (self r.2) = thresholds (self w).
Proof.
  cbv zeta. split; [lia|].
  apply (connect_pymodbus3_always_true 3 (sim_world false [] [Crash])).
  lia.
Defined.

Lemma connect_result_is_flag_witness :
  let w := sim_world false [] [Refuse] in
  let r := connect 2 w in
  connected (self w) = false /\ 2 < 3 /\
  r.1 = connected (self r.2) /\
  wire r.2 = wire w ++ (if r.1 then [ReadCoils 0 1] else []) /\
  r.1 = bool_decide ((client_connect (client (self w))).1 = Some true).
Proof.
  cbv zeta.
  destruct (connect_result_is_flag 2 (sim_world false [] [Refuse]) eq_refl)
    as (Hflag & Hwire & Hv2).
  split; [reflexivity|]. split; [lia|]. split; [exact Hflag|].
  split; [exact Hwire|]. apply Hv2. lia.
Defined.

Lemma disconnect_clears_flags_witness :
  let w := {| self := set_monitoring true (sim_controller true [] []);
              wire := [ReadCoils 0 1]; clock := 0%N |} in
  let w' := (disconnect 2 w).2 in
  connected (self w) = true /\
  connected (self w') = false /\
  monitoring (self w') = false /\
  wire w' = [ReadCoils 0 1].
Proof.
  cbv zeta.
  destruct (disconnect_clears_flags 2
              {| self := set_monitoring true (sim_controller true [] []);
                 wire := [ReadCoils 0 1]; clock := 0%N |})
    as (Hc & Hm & Hw & _).
  split; [reflexivity|]. split; [exact Hc|].
  split; [exact (Hm eq_refl) | exact Hw].
Defined.

Lemma disconnected_actuation_silent_witness :
  let w := sim_world false [] [] in
  connected (self w) = false /\
  ("flow" ∈ parameter_names) /\
  ("multiple_faults" ∈ scenario_names) /\
  pulse_coil "pump" None w = (false, w) /\
  (adjust_parameter "flow" "up" (Some 2) w).1 = true /\
  wire (adjust_parameter "flow" "up" (Some 2) w).2
    = wire w ++ replicate (Z.to_nat (default 1 (Some 2))) (Sleep 100) /\
  (run_scenario "multiple_faults" (process_of w)).1 = true /\
  exists evs,
    p_wire (run_scenario "multiple_faults" (process_of w)).2
      = wire w ++ evs /\
    Forall (fun e => is_sleep e = true) evs.
Proof.
  cbv zeta.
  assert (Hparam : "flow" ∈ parameter_names)
    by (apply (bool_decide_unpack _); vm_compute; exact I).
  assert (Hscen : "multiple_faults" ∈ scenario_names)
    by (apply (bool_decide_unpack _); vm_compute; exact I).
  destruct (disconnected_actuation_silent (sim_world false [] []) eq_refl)
    as (Hpulse & Hadj & Hrun).
  destruct (Hadj "flow" "up" (Some 2) Hparam) as [Hres Hwire].
  destruct (Hrun "multiple_faults" Hscen) as [Hres' Hevs].
  split; [reflexivity|]. split; [exact Hparam|]. split; [exact Hscen|].
  split; [exact (Hpulse "pump" None)|]. split; [exact Hres|].
  split; [exact Hwire|]. split; [exact Hres' | exact Hevs].
Defined.

Lemma other_scenarios_trains_witness :
  let ctl := sim_controller true [] [] in
  let run name :=
    run_scenario name
      {| plc_controller := Some ctl; p_wire := []; p_clock := 0%N |} in
  connected ctl = true /\
  (run "high_turbidity").1 = true /\
  (exists os, length os = 8%nat /\ Forall (fun o => o <> NotSent) os /\
     p_wire (run "high_turbidity").2 = [] ++ pulse_train 20 100 100 os) /\
  (run "normal_startup").1 = true /\
  (exists o, o <> NotSent /\
     p_wire (run "normal_startup").2
       = [] ++ [WriteCoil 4 false] ++ Sleep 500 :: pulse_events 3 100 o).
Proof.
  cbv zeta.
  destruct (other_scenarios_trains (sim_controller true [] []) [] 0%N)
    as ((Hres1 & os & Hlen & Hsent & Hwire1) & _
        & (Hres3 & clear & o & _ & Hconn & Hwire3)).
  destruct (Hconn eq_refl) as [-> Ho].
  split; [reflexivity|]. split; [exact Hres1|].
  split; [exists os; split; [exact Hlen|];
          split; [exact (Hsent eq_refl) | exact Hwire1]|].
  split; [exact Hres3|]. exists o. split; [exact Ho | exact Hwire3].
Defined.

Lemma web_layer_needs_connection_witness :
  let p := sim_process false [] [] in
  let data := {| action := Some "start"; parameter := None;
                 direction := None; steps := None; scenario := None |} in
  (forall ctl, plc_controller p = Some ctl -> connected ctl = false) /\
  control_system data p = (not_connected_reply, p) /\
  get_system_data_route p = (SnapshotError 400 "PLC not connected", p).
Proof.
  cbv zeta.
  assert (Hp : forall ctl : PLCWebController SimPLC,
             plc_controller (sim_process false [] []) = Some ctl ->
             connected ctl = false)
    by (intros ctl [= <-]; reflexivity).
  destruct (web_layer_needs_connection (sim_process false [] []) Hp)
    as (Hcontrol & Hroute & _).
  split; [exact Hp|]. split; [apply Hcontrol | exact Hroute].
Defined.

Lemma control_never_reads_witness :
  let p := sim_process true [] [] in
  let data := {| action := Some "scenario"; parameter := None;
                 direction := None; steps := None;
                 scenario := Some "low_pressure" |} in
  plc_controller p = Some (sim_controller true [] []) /\
  (exists evs,
     p_wire (control_system data p).2 = p_wire p ++ evs /\
     Forall (fun e => is_actuation e = true) evs) /\
  exists c', plc_controller (control_system data p).2
             = Some (set_client c' (sim_controller true [] [])).
Proof.
  cbv zeta.
  destruct (control_never_reads
              {| action := Some "scenario"; parameter := None;
                 direction := None; steps := None;
                 scenario := Some "low_pressure" |}
              (sim_process true [] [])) as [Hwire Hctl].
  split; [reflexivity|]. split; [exact Hwire|]. exact (Hctl _ eq_refl).
Defined.

Lemma control_emergency_button_witness :
  let p := sim_process true [] [Refuse] in
  let ctl := sim_controller true [] [Refuse] in
  let data := {| action := Some "emergency_stop"; parameter := None;
                 direction := None; steps := None; scenario := None |} in
  plc_controller p = Some ctl /\ connected ctl = true /\
  (control_system data p).1
    = json_success (is_reply (client_write_coil 4 true (client ctl)).1) /\
  p_wire (control_system data p).2 = p_wire p ++ [WriteCoil 4 true].
Proof.
  cbv zeta.
  destruct (control_emergency_button
              {| action := Some "emergency_stop"; parameter := None;
                 direction := None; steps := None; scenario := None |}
              (sim_process true [] [Refuse])
              (sim_controller true [] [Refuse]) true
              eq_refl eq_refl eq_refl) as (Hres & Hwire & _).
  split; [reflexivity|]. split; [reflexivity|].
  split; [exact Hres | exact Hwire].
Defined.

Lemma control_rejections_witness :
  let p := sim_process true [] [] in
  let ctl := sim_controller true [] [] in
  let dance := {| action := Some "dance"; parameter := None;
                  direction := None; steps := None; scenario := None |} in
  let adjust := {| action := Some "adjust_parameter";
                   parameter := Some "bogus"; direction := Some "up";
                   steps := None; scenario := None |} in
  let run := {| action := Some "scenario"; parameter := None;
                direction := None; steps := None; scenario := None |} in
  plc_controller p = Some ctl /\ connected ctl = true /\
  unknown_in control_actions (action dance) /\
  unknown_in parameter_names (parameter adjust) /\
  unknown_in scenario_names (scenario run) /\
  control_system dance p
    = ({| status := 200; success := false;
          message := Some "Unknown action" |}, p) /\
  control_system adjust p = (json_success false, p) /\
  control_system run p = (json_success false, p).
Proof.
  cbv zeta.
  assert (H1 : unknown_in control_actions (Some "dance"))
    by (apply not_in_known; vm_compute; reflexivity).
  assert (H2 : unknown_in parameter_names (Some "bogus"))
    by (apply not_in_known; vm_compute; reflexivity).
  assert (H3 : unknown_in scenario_names None) by (intros s [=]).
  split; [reflexivity|]. split; [reflexivity|].
  split; [exact H1|]. split; [exact H2|]. split; [exact H3|].
  split; [|split].
  - destruct (control_rejections
                {| action := Some "dance"; parameter := None;
                   direction := None; steps := None; scenario := None |}
                (sim_process true [] []) (sim_controller true [] [])
                eq_refl eq_refl) as (Hunknown & _).
    exact (Hunknown H1).
  - destruct (control_rejections
                {| action := Some "adjust_parameter";
                   parameter := Some "bogus"; direction := Some "up";
                   steps := None; scenario := None |}
                (sim_process true [] []) (sim_controller true [] [])
                eq_refl eq_refl) as (_ & Hadjust & _).
    exact (Hadjust eq_refl H2).
  - destruct (control_rejections
                {| action := Some "scenario"; parameter := None;
                   direction := None; steps := None; scenario := None |}
                (sim_process true [] []) (sim_controller true [] [])
                eq_refl eq_refl) as (_ & _ & Hrun).
    exact (Hrun eq_refl H3).
Defined.


Lemma snapshot_served_and_replayed_witness :
  let p := sim_process true [15; 25; 5; 75] [] in
  let ctl := sim_controller true [15; 25; 5; 75] [] in
  plc_controller p = Some ctl /\ connected ctl = true /\
  last_data ctl = None /\
  handle_connect p = [] /\
  exists d,
    (get_system_data_route p).1 = SnapshotReply d /\
    sd_connected d = true /\
    p_wire (get_system_data_route p).2
      = p_wire p ++ [ReadCoils 0 24; ReadHoldingRegisters 0 4] /\
    handle_connect (get_system_data_route p).2 = [PlcData d].
Proof.
  cbv zeta.
  destruct (snapshot_served_and_replayed
              (sim_process true [15; 25; 5; 75] [])) as [Hserve Hnone].
  split; [reflexivity|]. split; [reflexivity|]. split; [reflexivity|].
  split.
  - apply Hnone. by intros ctl [= <-].
  - exact (Hserve (sim_controller true [15; 25; 5; 75] []) eq_refl eq_refl).
Defined.

Lemma monitor_loop_stops_witness :
  let m := sim_monitor false true [] [] [] in
  monitoring (self (m_world m)) = false /\
  _monitor_loop 5 m = (Exited, m).
Proof.
  cbv zeta.
  destruct (monitor_loop_stops 2 5 (sim_monitor false true [] [] []))
    as [Hidle _].
  split; [reflexivity|]. apply Hidle. by left.
Defined.


Lemma monitor_loop_publishes_witness :
  let m := sim_monitor true true [15; 25; 5; 75] [] [true] in
  let m' := (_monitor_loop 2 m).2 in
  monitoring (self (m_world m)) = true /\
  connected (self (m_world m)) = true /\
  exists news,
    m_published m' = m_published m ++ news /\
    length news = 2%nat /\
    Forall (fun x => x.1 = "plc_data" /\ sd_connected x.2 = true) news /\
    last_data (self (m_world m'))
      = match last news with
        | Some x => Some x.2
        | None => last_data (self (m_world m))
        end.
Proof.
  cbv zeta. split; [reflexivity|]. split; [reflexivity|].
  apply (monitor_loop_publishes 2
           (sim_monitor true true [15; 25; 5; 75] [] [true])); reflexivity.
Defined.

Lemma connect_plc_installs_controller_witness :
  let data := {| cd_host := Some "plc.local"; cd_port := None |} in
  let r := connect_plc 3 data (sim_process true [] []) in
  3 >= 3 /\
  success r.1 = true /\
  exists ctl,
    plc_controller r.2 = Some ctl /\
    host ctl = "plc.local" /\ port ctl = 502 /\
    connected ctl = true /\ monitoring ctl = true /\
    p_wire r.2 = [ReadCoils 0 1].
Proof.
  cbv zeta.
  destruct (connect_plc_installs_controller 3
              {| cd_host := Some "plc.local"; cd_port := None |}
              (sim_process true [] []))
    as (ctl & Hctl & Hhost & Hport & _ & _ & Hconn & Hmon & _ & Hwire & Hv3).
  assert (Hok := Hv3 ltac:(lia)).
  rewrite Hok in Hconn, Hmon, Hwire.
  split; [lia|]. split; [exact Hok|]. exists ctl.
  split; [exact Hctl|]. split; [exact Hhost|]. split; [exact Hport|].
  split; [exact Hconn|]. split; [exact Hmon | exact Hwire].
Defined.
